(** * webcam-light: the event pipeline of [webcam_light.py]

    A shallow embedding of the camera monitor: line parsing, the debounce
    check, the display cache, the condition gates and the webhook dispatch.
    Python objects become records of their attributes, a method becomes a
    computation in a state-and-exception monad, and every call that leaves
    the process (clock, subprocess, HTTP) reads its outcome from an
    environment and leaves a mark in the world.  The readings of
    [time.time()] and the configured durations are read as exact rationals. *)

From stdpp Require Import gmap strings list fin_maps.
From Stdlib Require Import QArith Lqa.

Local Close Scope Q_scope.
Local Open Scope string_scope.

(** ** Python [str] operations used by the program

    A [str] is the sequence of the bytes of its UTF-8 encoding; the markers
    the program looks for are ASCII. *)

Module Py.

(** [s.startswith(p)] *)
Fixpoint startswith (p s : string) : bool :=
  match p, s with
  | EmptyString, _ => true
  | String a p', String b s' => if Ascii.eqb a b then startswith p' s' else false
  | String _ _, EmptyString => false
  end.

(** [needle in hay]: some suffix of [hay] starts with [needle]. *)
Fixpoint contains (needle hay : string) : bool :=
  startswith needle hay ||
  match hay with
  | EmptyString => false
  | String _ hay' => contains needle hay'
  end.

(** A string from the codes of its bytes. *)
Definition of_bytes (codes : list nat) : string :=
  fold_right (fun code rest => String (Ascii.ascii_of_nat code) rest) EmptyString codes.

(** The characters [c] for which [c.isspace()] holds, which are the ones
    [strip] removes, each in UTF-8: U+0009 to U+000D, U+001C to U+001F,
    U+0020, U+0085, U+00A0, U+1680, U+2000 to U+200A, U+2028, U+2029,
    U+202F, U+205F and U+3000. *)
Definition whitespace : list string :=
  List.map of_bytes
    [ [9]; [10]; [11]; [12]; [13]; [28]; [29]; [30]; [31]; [32];
      [194; 133]; [194; 160]; [225; 154; 128];
      [226; 128; 128]; [226; 128; 129]; [226; 128; 130]; [226; 128; 131];
      [226; 128; 132]; [226; 128; 133]; [226; 128; 134]; [226; 128; 135];
      [226; 128; 136]; [226; 128; 137]; [226; 128; 138];
      [226; 128; 168]; [226; 128; 169]; [226; 128; 175];
      [226; 129; 159]; [227; 128; 128] ].

(** [ch.isspace()] for a string [ch] of one character. *)
Definition isspace (ch : string) : bool := existsb (String.eqb ch) whitespace.

(** [s.lstrip()]: the characters of [whitespace] at the start are dropped;
    such a character takes one, two or three bytes. *)
Fixpoint lstrip (s : string) : string :=
  match s with
  | String a s1 =>
      if isspace (String a EmptyString) then lstrip s1
      else
        match s1 with
        | String b s2 =>
            if isspace (String a (String b EmptyString)) then lstrip s2
            else
              match s2 with
              | String c s3 =>
                  if isspace (String a (String b (String c EmptyString)))
                  then lstrip s3
                  else s
              | EmptyString => s
              end
        | EmptyString => s
        end
  | EmptyString => EmptyString
  end.

(** [s.rstrip()]: the characters of [whitespace] at the end are dropped.
    Going from the end, what is left of the rest is put after each byte;
    when that is just one character of [whitespace], it is dropped. *)
Fixpoint rstrip (s : string) : string :=
  match s with
  | String a s' =>
      let kept := String a (rstrip s') in
      if isspace kept then EmptyString else kept
  | EmptyString => EmptyString
  end.

(** [s.strip()] *)
Definition strip (s : string) : string := rstrip (lstrip s).

Definition lower_char (c : Ascii.ascii) : Ascii.ascii :=
  let n := Ascii.nat_of_ascii c in
  if (65 <=? n)%nat && (n <=? 90)%nat then Ascii.ascii_of_nat (n + 32) else c.

(** [s.lower()] on the ASCII letters; the bytes of other characters are
    left as they are.  For the two comparisons of the program, with "true"
    and with "internal", this decides what [str.lower] decides: the only
    character outside ASCII that [str.lower] turns into ASCII letters alone
    is U+212A, which becomes "k". *)
Fixpoint lower (s : string) : string :=
  match s with
  | String c s' => String (lower_char c) (lower s')
  | EmptyString => EmptyString
  end.

(** What [startswith] and [in] decide. *)
Definition StartsWith (p s : string) : Prop := exists rest, s = p ++ rest.
Definition Contains (needle hay : string) : Prop :=
  exists pre post, hay = pre ++ needle ++ post.

End Py.

(** ** Exceptions

    The classes the program names in its [except] clauses, and the ones the
    calls inside its [try] blocks raise, with Python's class hierarchy. *)

Inductive exn : Type :=
| Exception
| KeyboardInterrupt
| OSError
| FileNotFoundError
| TimeoutError
| URLError
| HTTPError
| SubprocessError
| CalledProcessError
| TimeoutExpired
| ValueError
| HTTPException.

(** The direct base class; [None] for a class that derives from
    [BaseException] itself. *)
Definition base (e : exn) : option exn :=
  match e with
  | Exception | KeyboardInterrupt => None
  | OSError | SubprocessError | ValueError | HTTPException => Some Exception
  | FileNotFoundError | TimeoutError | URLError => Some OSError
  | HTTPError => Some URLError
  | CalledProcessError | TimeoutExpired => Some SubprocessError
  end.

Definition exn_eqb (a b : exn) : bool :=
  match a, b with
  | Exception, Exception | KeyboardInterrupt, KeyboardInterrupt
  | OSError, OSError | FileNotFoundError, FileNotFoundError
  | TimeoutError, TimeoutError | URLError, URLError | HTTPError, HTTPError
  | SubprocessError, SubprocessError | CalledProcessError, CalledProcessError
  | TimeoutExpired, TimeoutExpired | ValueError, ValueError
  | HTTPException, HTTPException => true
  | _, _ => false
  end.

Fixpoint issubclass_upto (depth : nat) (e cls : exn) : bool :=
  exn_eqb e cls ||
  match depth, base e with
  | S d, Some b => issubclass_upto d b cls
  | _, _ => false
  end.

(** [issubclass(e, cls)]; no chain of base classes is longer than three. *)
Definition issubclass (e cls : exn) : bool := issubclass_upto 3 e cls.

(** [except (c1, c2, ...)] handles [e] when [e] is an instance of one of them. *)
Definition handles (classes : list exn) (e : exn) : bool :=
  existsb (issubclass e) classes.

(** The outcome of a call: a value, or a raised exception. *)
Inductive result (A : Type) : Type :=
| Return (a : A)
| Raise (e : exn).
Arguments Return {A} a.
Arguments Raise {A} e.

(** ** Data *)

(** The values that occur in [metadata] and in the JSON payload. *)
Inductive pyval : Type :=
| VBool (b : bool)
| VStr (s : string)
| VList (l : list string).

Abbreviation dict := (gmap string pyval).

(** [{**base, **extra}]: the items of [extra] are stored into [base] one by
    one, so a key of [extra] replaces the same key of [base]. *)
Definition dict_unpack (base extra : dict) : dict :=
  map_fold (fun k v acc => <[k := v]> acc) base extra.

Record Config : Type := mkConfig {
  webhook_url : string;
  home_ip_prefix : string;
  require_home_network : bool;
  require_external_monitor : bool;
  debounce_seconds : Q;
  displays_cache_ttl_seconds : Z;
}.

Inductive level : Type := INFO | WARNING | ERROR.

(** The log records the program writes, by their format string. *)
Inductive message : Type :=
| Failed_to_get_IP_addresses (e : exn)
| Failed_to_detect_external_monitor (e : exn)
| Webhook_sent_successfully_to (url : string)
| Webhook_failed_with_status (status : Z)
| Failed_to_send_webhook (e : exn)
| Camera_Conditions (state : string) (metadata : dict)
| Starting_camera_monitor
| Monitoring_stopped_by_user
| Monitoring_failed (e : exn).

(** The attributes of a [SystemInfo] object. *)
Record SystemInfo : Type := mkSystemInfo {
  _display_cache : option bool;
  _cache_timestamp : Q;
}.

(** The attributes of a [CameraMonitor] object ([_config] is fixed, and
    [_notifier] holds nothing but the configuration). *)
Record CameraMonitor : Type := mkCameraMonitor {
  _system_info : SystemInfo;
  _last_state : option string;
  _last_sent : Q;
}.

(** [CameraMonitor.__init__] *)
Definition CameraMonitor_init : CameraMonitor :=
  mkCameraMonitor (mkSystemInfo None 0%Q) None 0%Q.

(** What the program has done to the outside world so far: how often it
    read the clock and ran each command, the webhook requests it attempted
    (one per call of [send_notification]) and the records it logged, oldest
    first; [runtime_stores] counts the assignments to [_last_state] and to
    [_last_sent] that were executed. *)
Record World : Type := mkWorld {
  clock_reads : nat;
  ifconfig_runs : nat;
  profiler_runs : nat;
  webhook_posts : list (string * dict);
  log : list (level * message);
  runtime_stores : nat;
}.

Definition World_init : World := mkWorld 0 0 0 [] [] 0.

Record Machine : Type := mkMachine {
  self : CameraMonitor;
  world : World;
}.

(** What the outside world answers: the n-th reading of [time.time()], the
    n-th run of each command ([subprocess.run] with [check=True] and
    [timeout=5]: its stdout, or the exception it raises), and the n-th
    webhook request ([Request] and [urlopen] with [timeout=5]: the status of
    the response, or the exception raised). *)
Record Env : Type := mkEnv {
  time_time : nat -> Q;
  ifconfig : nat -> result string;
  system_profiler : nat -> result string;
  urlopen : nat -> string -> dict -> result Z;
}.

(** The program's three regular-expression queries and [str.splitlines], as
    Python's library computes them:
    [inet_address line] is [group(1)] of
    [re.search(r"\binet\s+(\d+\.\d+\.\d+\.\d+)\b", line)], if it matches;
    [connection_types out] lists [group(1)] of every match of
    [re.finditer(r"(?im)^\s*Connection Type:\s*(.+)\s*$", out)];
    [display_headers out] is
    [re.findall(r"(?m)^\s{8}.+:\s*$", out)]. *)
Record Regex : Type := mkRegex {
  splitlines : string -> list string;
  inet_address : string -> option string;
  connection_types : string -> list string;
  display_headers : string -> list string;
}.

(** Time stamps and durations are rationals; [x < y] as a boolean. *)
Definition Qltb (x y : Q) : bool := negb (Qle_bool y x).

(** ** The monad: state of the machine, and exceptions *)

Definition M (A : Type) : Type := Machine -> result A * Machine.

Definition ret {A} (a : A) : M A := fun m => (Return a, m).

Definition bind {A B} (c : M A) (k : A -> M B) : M B :=
  fun m =>
    match c m with
    | (Return a, m') => k a m'
    | (Raise e, m') => (Raise e, m')
    end.

Notation "'do' x <- c ; k" := (bind c (fun x => k))
  (at level 10, x name, c at level 100, k at level 200).
Notation "'do' ' pat <- c ; k" := (bind c (fun x => match x with pat => k end))
  (at level 10, pat pattern, c at level 100, k at level 200).

(** [try: body except classes as e: handler e] *)
Definition try_except {A} (body : M A) (classes : list exn) (handler : exn -> M A) : M A :=
  fun m =>
    match body m with
    | (Raise e, m') => if handles classes e then handler e m' else (Raise e, m')
    | r => r
    end.

Definition get_self : M CameraMonitor := fun m => (Return (self m), m).

Definition on_world (f : World -> World) (m : Machine) : Machine :=
  mkMachine (self m) (f (world m)).

Definition tick (w : World) : World :=
  mkWorld (S (clock_reads w)) (ifconfig_runs w) (profiler_runs w)
          (webhook_posts w) (log w) (runtime_stores w).

Definition ran_ifconfig (w : World) : World :=
  mkWorld (clock_reads w) (S (ifconfig_runs w)) (profiler_runs w)
          (webhook_posts w) (log w) (runtime_stores w).

Definition ran_profiler (w : World) : World :=
  mkWorld (clock_reads w) (ifconfig_runs w) (S (profiler_runs w))
          (webhook_posts w) (log w) (runtime_stores w).

Definition posted (url : string) (payload : dict) (w : World) : World :=
  mkWorld (clock_reads w) (ifconfig_runs w) (profiler_runs w)
          (webhook_posts w ++ [(url, payload)]) (log w) (runtime_stores w).

Definition logged (l : level) (msg : message) (w : World) : World :=
  mkWorld (clock_reads w) (ifconfig_runs w) (profiler_runs w)
          (webhook_posts w) (log w ++ [(l, msg)]) (runtime_stores w).

Definition stored (w : World) : World :=
  mkWorld (clock_reads w) (ifconfig_runs w) (profiler_runs w)
          (webhook_posts w) (log w) (S (runtime_stores w)).

(** [logger.info], [logger.warning], [logger.error] *)
Definition logger (l : level) (msg : message) : M unit :=
  fun m => (Return tt, on_world (logged l msg) m).

(** ** The program *)

Section Program.

Variable re : Regex.
Variable env : Env.
Variable _config : Config.

(** [time.time()] *)
Definition time_now : M Q :=
  fun m => (Return (time_time env (clock_reads (world m))), on_world tick m).

(** [subprocess.run(["/sbin/ifconfig"], ..., check=True, timeout=5).stdout] *)
Definition subprocess_run_ifconfig : M string :=
  fun m => (ifconfig env (ifconfig_runs (world m)), on_world ran_ifconfig m).

(** [subprocess.run(["/usr/sbin/system_profiler", "SPDisplaysDataType"],
    ..., check=True, timeout=5).stdout] *)
Definition subprocess_run_system_profiler : M string :=
  fun m => (system_profiler env (profiler_runs (world m)), on_world ran_profiler m).

(** [json.dumps(payload)], [Request(url, data, headers)] and
    [urlopen(request, timeout=5)], giving [response.status]. *)
Definition urlopen_status (url : string) (payload : dict) : M Z :=
  fun m => (urlopen env (length (webhook_posts (world m))) url payload,
            on_world (posted url payload) m).

(** *** [SystemInfo] *)

(** The loop of [get_active_ipv4_addresses] over the lines of stdout. *)
Fixpoint collect_ips (lines : list string) (ips : list string) : list string :=
  match lines with
  | [] => ips
  | line :: rest =>
      match inet_address re line with
      | Some ip =>
          if negb (Py.startswith "127." ip)
          then collect_ips rest (ips ++ [ip])
          else collect_ips rest ips
      | None => collect_ips rest ips
      end
  end.

Definition get_active_ipv4_addresses : M (list string) :=
  try_except
    (do stdout <- subprocess_run_ifconfig;
     ret (collect_ips (splitlines re stdout) []))
    [SubprocessError; TimeoutExpired]
    (fun e =>
       do _ <- logger WARNING (Failed_to_get_IP_addresses e);
       ret []).

Definition is_on_home_network : M (bool * list string) :=
  do ips <- get_active_ipv4_addresses;
  let is_home := existsb (Py.startswith (home_ip_prefix _config)) ips in
  ret (is_home, ips).

(** The loop of [_detect_external_monitor] over the matches of the
    connection-type pattern: [true] when it returns [True] from inside. *)
Fixpoint non_internal_connection (matches : list string) : bool :=
  match matches with
  | [] => false
  | group1 :: rest =>
      let connection_type := Py.strip group1 in
      if negb (String.eqb (Py.lower connection_type) "internal")
      then true
      else non_internal_connection rest
  end.

Definition _detect_external_monitor : M bool :=
  try_except
    (do stdout <- subprocess_run_system_profiler;
     if non_internal_connection (connection_types re stdout)
     then ret true
     else
       let headers := display_headers re stdout in
       ret (2 <=? length headers)%nat)
    [SubprocessError; TimeoutExpired]
    (fun e =>
       do _ <- logger WARNING (Failed_to_detect_external_monitor e);
       ret false).

Definition set_display_cache (v : bool) (now : Q) : M unit :=
  fun m =>
    (Return tt,
     mkMachine
       (mkCameraMonitor (mkSystemInfo (Some v) now)
                        (_last_state (self m)) (_last_sent (self m)))
       (world m)).

Definition has_external_monitor : M bool :=
  do now <- time_now;
  do me <- get_self;
  let cache_valid :=
    match _display_cache (_system_info me) with
    | Some _ =>
        Qltb (now - _cache_timestamp (_system_info me))%Q
             (inject_Z (displays_cache_ttl_seconds _config))
    | None => false
    end in
  do _ <-
    (if negb cache_valid then
       do v <- _detect_external_monitor;
       set_display_cache v now
     else ret tt);
  do me <- get_self;
  match _display_cache (_system_info me) with
  | Some v => ret v
  | None => ret false  (* not reached: the cache is filled by now *)
  end.

(** *** [WebhookNotifier] *)

Definition send_notification (state : string) (metadata : dict) : M bool :=
  let payload := dict_unpack {[ "state" := VStr state ]} metadata in
  try_except
    (do status <- urlopen_status (webhook_url _config) payload;
     if (200 <=? status)%Z && (status <? 300)%Z then
       do _ <- logger INFO (Webhook_sent_successfully_to (webhook_url _config));
       ret true
     else
       do _ <- logger ERROR (Webhook_failed_with_status status);
       ret false)
    [URLError; HTTPError; OSError]
    (fun e =>
       do _ <- logger ERROR (Failed_to_send_webhook e);
       ret false).

(** *** [CameraMonitor] *)

Definition _conditions_met : M (bool * dict) :=
  do '(is_home, ips) <- is_on_home_network;
  do has_external <- has_external_monitor;
  let conditions_ok := true in
  let conditions_ok :=
    if require_home_network _config then conditions_ok && is_home else conditions_ok in
  let conditions_ok :=
    if require_external_monitor _config then conditions_ok && has_external
    else conditions_ok in
  let metadata : dict :=
    <[ "external_monitor" := VBool has_external ]>
      (<[ "ip_addresses" := VList ips ]>
         (<[ "home_network" := VBool is_home ]> ∅)) in
  ret (conditions_ok, metadata).

(** [state == self._last_state], a [str] against an [Optional[str]]. *)
Definition state_eqb (state : string) (last : option string) : bool :=
  match last with
  | Some s => String.eqb state s
  | None => false
  end.

Definition _should_debounce (state : string) : M bool :=
  do now <- time_now;
  do me <- get_self;
  ret (state_eqb state (_last_state me) &&
       Qltb (now - _last_sent me)%Q (debounce_seconds _config)).

Definition _parse_camera_state (log_line : string) : option string :=
  if Py.contains "running -> 1" log_line then Some "on"
  else if Py.contains "running -> 0" log_line then Some "off"
  else None.

(** [self._last_state = state] *)
Definition set_last_state (state : string) : M unit :=
  fun m =>
    (Return tt,
     mkMachine
       (mkCameraMonitor (_system_info (self m)) (Some state) (_last_sent (self m)))
       (stored (world m))).

(** [self._last_sent = t] *)
Definition set_last_sent (t : Q) : M unit :=
  fun m =>
    (Return tt,
     mkMachine
       (mkCameraMonitor (_system_info (self m)) (_last_state (self m)) t)
       (stored (world m))).

(** The body of the loop of [run], for one line of the log stream; it
    returns where the source says [continue] or reaches the end of the body. *)
Definition run_body (line : string) : M unit :=
  if Py.contains "Filtering the log data using" line then ret tt
  else
    match _parse_camera_state line with
    | None | Some "" => ret tt
    | Some state =>
        do debounce <- _should_debounce state;
        if debounce then ret tt
        else
          do '(conditions_ok, metadata) <- _conditions_met;
          do _ <- logger INFO (Camera_Conditions state metadata);
          do _ <-
            (if conditions_ok && (String.eqb state "on" || String.eqb state "off")
             then do _ <- send_notification state metadata; ret tt
             else ret tt);
          do _ <- set_last_state state;
          do now <- time_now;
          set_last_sent now
    end.

Fixpoint run_lines (lines : list string) : M unit :=
  match lines with
  | [] => ret tt
  | line :: rest => do _ <- run_body line; run_lines rest
  end.

(** [run], over the lines the log stream delivers before it closes. *)
Definition run (lines : list string) : M unit :=
  do _ <- logger INFO Starting_camera_monitor;
  fun m =>
    match run_lines lines m with
    | (Raise e, m') =>
        if issubclass e KeyboardInterrupt
        then logger INFO Monitoring_stopped_by_user m'
        else if issubclass e Exception
        then logger ERROR (Monitoring_failed e) m'
        else (Raise e, m')
    | r => r
    end.

End Program.

(** ** Start-up: [parse_arguments] and [main] *)

(** [float(s)] and [int(s)] as Python computes them: [None] where they
    raise [ValueError], and the number they return otherwise.  A text as
    "inf" or "nan", which [float] accepts without returning a number, has no
    answer here: what is stated below for a returned configuration holds
    for environments whose numbers are finite. *)
Record Conversions : Type := mkConversions {
  py_float : string -> option Q;
  py_int : string -> option Z;
}.

(** [os.getenv(key, default)] *)
Definition getenv (environ : gmap string string) (key default : string) : string :=
  match environ !! key with
  | Some value => value
  | None => default
  end.

(** The command line as [argparse] accepts it: the value of each option
    that was given ([--debounce-seconds] and [--displays-cache-ttl] already
    converted by [type=float] and [type=int]), and for each of the two
    mutually exclusive groups which flag was given, [Some true] for
    [--require-...], [Some false] for [--no-require-...].  On any other
    command line (both flags of a group, a value that is not a number, an
    unknown option, [--help]) [parser.parse_args()] ends the process with
    [SystemExit]; these command lines are not values of this type, and what
    [parse_arguments] does on them after line 291 is not modelled. *)
Record CommandLine : Type := mkCommandLine {
  given_webhook_url : option string;
  given_home_ip_prefix : option string;
  given_home_network_flag : option bool;
  given_external_monitor_flag : option bool;
  given_debounce_seconds : option Q;
  given_displays_cache_ttl : option Z;
}.

(** The namespace [parser.parse_args()] returns. *)
Record Namespace : Type := mkNamespace {
  args_webhook_url : string;
  args_home_ip_prefix : string;
  args_require_home_network : bool;
  args_no_require_home_network : bool;
  args_require_external_monitor : bool;
  args_no_require_external_monitor : bool;
  args_debounce_seconds : Q;
  args_displays_cache_ttl : Z;
}.

(** An option with [default=d] holds the given value, or [d]. *)
Definition option_or {A} (given : option A) (d : A) : A :=
  match given with
  | Some value => value
  | None => d
  end.

(** A [store_true] flag of a group is set when this flag was given. *)
Definition flag_given (group : option bool) (flag : bool) : bool :=
  match group with
  | Some b => Bool.eqb b flag
  | None => false
  end.

(** [parser.parse_args()] for the parser that [parse_arguments] builds with
    the four defaults taken from the environment. *)
Definition parse_args (default_webhook_url default_home_ip_prefix : string)
    (default_debounce_seconds : Q) (default_displays_cache_ttl : Z)
    (cli : CommandLine) : Namespace :=
  mkNamespace
    (option_or (given_webhook_url cli) default_webhook_url)
    (option_or (given_home_ip_prefix cli) default_home_ip_prefix)
    (flag_given (given_home_network_flag cli) true)
    (flag_given (given_home_network_flag cli) false)
    (flag_given (given_external_monitor_flag cli) true)
    (flag_given (given_external_monitor_flag cli) false)
    (option_or (given_debounce_seconds cli) default_debounce_seconds)
    (option_or (given_displays_cache_ttl cli) default_displays_cache_ttl).

Definition parse_arguments (conv : Conversions) (environ : gmap string string)
    (cli : CommandLine) : result Config :=
  let env_webhook_url :=
    getenv environ "WEBHOOK_URL" "http://homeassistant:8123/api/webhook/none" in
  let env_home_ip_prefix := getenv environ "HOME_IP_PREFIX" "192.168.137." in
  let env_require_home_network :=
    String.eqb (Py.lower (getenv environ "REQUIRE_HOME_NETWORK" "true")) "true" in
  let env_require_external_monitor :=
    String.eqb (Py.lower (getenv environ "REQUIRE_EXTERNAL_MONITOR" "true")) "true" in
  match py_float conv (getenv environ "DEBOUNCE_SECONDS" "5.0") with
  | None => Raise ValueError
  | Some env_debounce_seconds =>
      match py_int conv (getenv environ "DISPLAYS_CACHE_TTL_SECONDS" "15") with
      | None => Raise ValueError
      | Some env_displays_cache_ttl =>
          let args :=
            parse_args env_webhook_url env_home_ip_prefix
                       env_debounce_seconds env_displays_cache_ttl cli in
          let require_home_network :=
            if args_require_home_network args then true
            else if args_no_require_home_network args then false
            else env_require_home_network in
          let require_external_monitor :=
            if args_require_external_monitor args then true
            else if args_no_require_external_monitor args then false
            else env_require_external_monitor in
          Return (mkConfig (args_webhook_url args) (args_home_ip_prefix args)
                           require_home_network require_external_monitor
                           (args_debounce_seconds args)
                           (args_displays_cache_ttl args))
      end
  end.

(** [main]: the configuration is parsed, a monitor is created and run on
    the lines of the log stream; [w] is the world it starts in. *)
Definition main (re : Regex) (env : Env) (conv : Conversions)
    (environ : gmap string string) (cli : CommandLine) (lines : list string)
    (w : World) : result unit * World :=
  match parse_arguments conv environ cli with
  | Return config =>
      let (r, m) := run re env config lines (mkMachine CameraMonitor_init w) in
      (r, world m)
  | Raise e => (Raise e, w)
  end.

(** ** Notions used in the statements *)

(** A line that carries an event for the loop of [run]: it is not the
    banner of the log tool and it parses to a state. *)
Definition carries_event (line : string) : bool :=
  negb (Py.contains "Filtering the log data using" line) &&
  match _parse_camera_state line with
  | Some _ => true
  | None => false
  end.

(** A request body that respects the gates of a configuration: the state
    and the three metadata entries, with the required conditions reported
    as met. *)
Definition respects_gates (cfg : Config) (payload : dict) : Prop :=
  dom payload = {[ "state"; "home_network"; "ip_addresses"; "external_monitor" ]} /\
  (payload !! "state" = Some (VStr "on") \/ payload !! "state" = Some (VStr "off")) /\
  (exists ips, payload !! "ip_addresses" = Some (VList ips)) /\
  (exists b, payload !! "home_network" = Some (VBool b) /\
             (require_home_network cfg = true -> b = true)) /\
  (exists b, payload !! "external_monitor" = Some (VBool b) /\
             (require_external_monitor cfg = true -> b = true)).

(** ** Sample inputs

    A configuration, two command outputs with the answers Python's [re]
    gives on them, and environments in which the statements below are
    exercised. *)

Definition sample_config : Config :=
  mkConfig "http://homeassistant:8123/api/webhook/light" "192.168.137."
           true true 5%Q 15%Z.

Definition fresh_machine : Machine := mkMachine CameraMonitor_init World_init.

(** A monitor that recorded "on" at time 998 and cached, at time 990, that
    an external monitor is attached. *)
Definition recently_on : Machine :=
  mkMachine (mkCameraMonitor (mkSystemInfo (Some true) 990%Q) (Some "on") 998%Q)
            World_init.

Definition LF : string := String (Ascii.ascii_of_nat 10) "".

Definition unlines (lines : list string) : string := String.concat LF lines.

(** [str.splitlines] on a text whose only line boundary is the line feed. *)
Fixpoint split_lf (s current : string) : list string :=
  match s with
  | EmptyString => if String.eqb current "" then [] else [current]
  | String c s' =>
      if Ascii.eqb c (Ascii.ascii_of_nat 10)
      then current :: split_lf s' ""
      else split_lf s' (current ++ String c "")
  end.

Definition lookup_table {A} (default : A) (table : list (string * A)) (key : string) : A :=
  match List.find (fun entry => String.eqb (fst entry) key) table with
  | Some entry => snd entry
  | None => default
  end.

Definition ifconfig_output : string :=
  unlines
    [ "lo0: flags=8049<UP,LOOPBACK,RUNNING,MULTICAST> mtu 16384";
      " inet 127.0.0.1 netmask 0xff000000";
      "en0: flags=8863<UP,BROADCAST,SMART,RUNNING,SIMPLEX,MULTICAST> mtu 1500";
      " inet 192.168.137.5 netmask 0xffffff00 broadcast 192.168.137.255" ].

Definition displays_built_in : string :=
  unlines
    [ "Graphics/Displays:";
      "    Apple M1:";
      "      Displays:";
      "        Color LCD:";
      "          Connection Type: Internal" ].

Definition displays_with_external : string :=
  unlines
    [ "Graphics/Displays:";
      "    Apple M1:";
      "      Displays:";
      "        Color LCD:";
      "          Connection Type: Internal";
      "        DELL U2720Q:";
      "          Connection Type: DisplayPort" ].

(** The answers of the patterns on the lines and outputs above; on any other
    text this stand-in finds nothing. *)
Definition sample_regex : Regex :=
  mkRegex
    (fun text => split_lf text "")
    (lookup_table None
       [ (" inet 127.0.0.1 netmask 0xff000000", Some "127.0.0.1");
         (" inet 192.168.137.5 netmask 0xffffff00 broadcast 192.168.137.255",
          Some "192.168.137.5") ])
    (lookup_table []
       [ (displays_built_in, ["Internal"]);
         (displays_with_external, ["Internal"; "DisplayPort"]) ])
    (lookup_table []
       [ (displays_built_in, ["        Color LCD:"]);
         (displays_with_external, ["        Color LCD:"; "        DELL U2720Q:"]) ]).

(** An environment in which nothing fails: the clock advances by one second
    per reading from 1000 on, the commands print the given outputs, the
    webhook answers [status]. *)
Definition calm_env (displays : string) (status : Z) : Env :=
  mkEnv (fun n => inject_Z (1000 + Z.of_nat n))
        (fun _ => Return ifconfig_output)
        (fun _ => Return displays)
        (fun _ _ _ => Return status).

(** The same clock, with every command and every request raising [e]. *)
Definition failing_env (e : exn) : Env :=
  mkEnv (fun n => inject_Z (1000 + Z.of_nat n))
        (fun _ => Raise e)
        (fun _ => Raise e)
        (fun _ _ _ => Raise e).

(** A configuration without gates, debounce, cache or prefix. *)
Definition permissive_config : Config :=
  mkConfig "http://homeassistant:8123/api/webhook/light" "" false false 0%Q 0%Z.

(** A monitor whose records are ahead of the clock of the sample
    environments, as after the system clock was set back: "on" was recorded
    and the display cached at time 2000. *)
Definition ahead_of_clock : Machine :=
  mkMachine (mkCameraMonitor (mkSystemInfo (Some true) 2000%Q) (Some "on") 2000%Q)
            World_init.

(** [float] and [int] on a few texts. *)
Definition sample_conversions : Conversions :=
  mkConversions
    (lookup_table None [ ("5.0", Some 5%Q); ("2.5", Some (5 # 2)%Q); ("0", Some 0%Q) ])
    (lookup_table None [ ("15", Some 15%Z); ("30", Some 30%Z); ("0", Some 0%Z) ]).

Definition sample_environ : gmap string string :=
  {[ "REQUIRE_HOME_NETWORK" := "True"; "REQUIRE_EXTERNAL_MONITOR" := "yes" ]}.

(** [--no-require-home-network --debounce-seconds 2.5] *)
Definition sample_command_line : CommandLine :=
  mkCommandLine None None (Some false) None (Some (5 # 2)%Q) None.

(** The commands succeed, and every webhook request raises [e]. *)
Definition unreachable_webhook_env (displays : string) (e : exn) : Env :=
  mkEnv (fun n => inject_Z (1000 + Z.of_nat n))
        (fun _ => Return ifconfig_output)
        (fun _ => Return displays)
        (fun _ _ _ => Raise e).

(** A line of the log stream that reports the camera starting. *)
Definition camera_on_line : string :=
  "2024-01-01 12:00:00 host appleh13camerad: (AVCaptureSession) running -> 1".

(** ** Strings *)

Lemma append_cons a (s t : string) : String a s ++ t = String a (s ++ t).
Proof. reflexivity. Qed.

Lemma startswith_spec p s : Py.startswith p s = true <-> Py.StartsWith p s.
Proof.
  revert s; induction p as [|a p IH]; intros s; simpl.
  - split; [intros _; exists s; reflexivity | reflexivity].
  - destruct s as [|b s].
    + split; [discriminate | intros [r Hr]; discriminate].
    + destruct (Ascii.eqb_spec a b) as [->|Hab].
      * rewrite IH. split; intros [r Hr]; exists r;
          rewrite append_cons in *; congruence.
      * split; [discriminate |].
        intros [r Hr]. rewrite append_cons in Hr. congruence.
Qed.

Lemma contains_spec needle hay : Py.contains needle hay = true <-> Py.Contains needle hay.
Proof.
  induction hay as [|b hay IH]; simpl.
  - rewrite orb_false_r, startswith_spec. split.
    + intros [r Hr]. exists "", r. exact Hr.
    + intros [pre [post H]]. destruct pre; [|discriminate].
      exists post. exact H.
  - rewrite orb_true_iff, startswith_spec, IH. split.
    + intros [[r Hr]|[pre [post H]]].
      * exists "", r. exact Hr.
      * exists (String b pre), post. rewrite append_cons. congruence.
    + intros [pre [post H]]. destruct pre as [|c pre].
      * left. exists post. exact H.
      * right. exists pre, post. rewrite append_cons in H. congruence.
Qed.

Lemma startswith_false p s : Py.startswith p s = false <-> ~ Py.StartsWith p s.
Proof.
  rewrite <- startswith_spec. destruct (Py.startswith p s); split; congruence.
Qed.

(** From here on the two operations are used through their
    characterisations. *)
#[local] Arguments Py.startswith : simpl never.
#[local] Arguments Py.contains : simpl never.

(** ** Line parsing *)

(** C1: a line parses to "on" exactly when it contains "running -> 1", to
    "off" exactly when it contains "running -> 0" and not "running -> 1",
    and to no event exactly when it contains neither; a line with both
    markers parses to "on". *)
Theorem parse_camera_state_spec (log_line : string) :
  (_parse_camera_state log_line = Some "on"
     <-> Py.Contains "running -> 1" log_line) /\
  (_parse_camera_state log_line = Some "off"
     <-> Py.Contains "running -> 0" log_line /\ ~ Py.Contains "running -> 1" log_line) /\
  (_parse_camera_state log_line = None
     <-> ~ Py.Contains "running -> 1" log_line /\ ~ Py.Contains "running -> 0" log_line) /\
  (Py.Contains "running -> 1" log_line -> Py.Contains "running -> 0" log_line ->
     _parse_camera_state log_line = Some "on").
Proof.
  unfold _parse_camera_state.
  rewrite <- !contains_spec.
  destruct (Py.contains "running -> 1" log_line), (Py.contains "running -> 0" log_line);
    repeat split; intros; try discriminate; try reflexivity; intuition congruence.
Qed.

(** The parser yields one of the two state strings, never another one. *)
Lemma parse_camera_state_on_off log_line state :
  _parse_camera_state log_line = Some state -> state = "on" \/ state = "off".
Proof.
  unfold _parse_camera_state.
  destruct (Py.contains "running -> 1" log_line); [intros [= <-]; auto|].
  destruct (Py.contains "running -> 0" log_line); [intros [= <-]; auto|discriminate].
Qed.

(** ** Time *)

Lemma Qltb_lt x y : Qltb x y = true <-> (x < y)%Q.
Proof.
  unfold Qltb. rewrite negb_true_iff. split.
  - intros H. apply Qnot_le_lt. intros Hle. apply Qle_bool_iff in Hle. congruence.
  - intros H. destruct (Qle_bool y x) eqn:E; [|reflexivity].
    apply Qle_bool_iff in E. exfalso. exact (Qlt_not_le _ _ H E).
Qed.

Lemma Qltb_ge x y : Qltb x y = false <-> (y <= x)%Q.
Proof.
  unfold Qltb. rewrite negb_false_iff. apply Qle_bool_iff.
Qed.

(** ** Dictionaries *)

Lemma dict_unpack_union (base extra : dict) : dict_unpack base extra = extra ∪ base.
Proof.
  unfold dict_unpack.
  apply (map_fold_weak_ind (fun (r : dict) (m : dict) => r = m ∪ base)).
  - by rewrite (left_id_L ∅ (∪)).
  - intros i x m r _ ->. by rewrite insert_union_l.
Qed.

(** ** The notifier *)

Section Notifier.

Variable env : Env.
Variable cfg : Config.

Lemma handles_webhook_errors e :
  handles [URLError; HTTPError; OSError] e = issubclass e OSError.
Proof. destruct e; reflexivity. Qed.

(** C10: the request body of [send_notification] has the keys of the
    metadata and the key "state", nothing else; under "state" it carries the
    metadata's value when the metadata has that key, and the state argument
    otherwise; every other key carries the metadata's value. *)
Theorem send_notification_payload (state : string) (metadata : dict) (m : Machine) :
  exists payload : dict,
    webhook_posts (world (snd (send_notification env cfg state metadata m)))
      = (webhook_posts (world m) ++ [(webhook_url cfg, payload)])%list /\
    dom payload = {[ "state" ]} ∪ dom metadata /\
    (forall v, metadata !! "state" = Some v -> payload !! "state" = Some v) /\
    (metadata !! "state" = None -> payload !! "state" = Some (VStr state)) /\
    (forall k, k <> "state" -> payload !! k = metadata !! k).
Proof.
  exists (dict_unpack {[ "state" := VStr state ]} metadata).
  split; [|rewrite dict_unpack_union; repeat split].
  - unfold send_notification, try_except, bind, urlopen_status.
    destruct (urlopen env _ _ _) as [status|e].
    + destruct ((200 <=? status)%Z && (status <? 300)%Z); reflexivity.
    + rewrite handles_webhook_errors.
      destruct (issubclass e OSError); reflexivity.
  - rewrite dom_union_L, dom_singleton_L. apply union_comm_L.
  - intros v Hv. by apply lookup_union_Some_l.
  - intros Hnone. rewrite lookup_union_r by exact Hnone.
    apply lookup_singleton_eq.
  - intros k Hk. destruct (metadata !! k) as [v|] eqn:E.
    + by apply lookup_union_Some_l.
    + rewrite lookup_union_r by exact E. by apply lookup_singleton_ne.
Qed.

(** C6, as the code has it: [send_notification] returns [True] exactly when
    the request completes with a status in [200,300); it returns [False]
    exactly when the response has another status or the request raises an
    instance of [URLError], [HTTPError] or [OSError] (time-outs and
    connection errors are such); an exception of any other class raised
    inside the [try] block leaves the function. *)
Theorem send_notification_result (state : string) (metadata : dict) (m : Machine) :
  let payload := dict_unpack {[ "state" := VStr state ]} metadata in
  let outcome := urlopen env (length (webhook_posts (world m))) (webhook_url cfg) payload in
  let r := fst (send_notification env cfg state metadata m) in
  (r = Return true <->
     exists status, outcome = Return status /\ (200 <= status < 300)%Z) /\
  (r = Return false <->
     (exists status, outcome = Return status /\ ~ (200 <= status < 300)%Z) \/
     (exists e, outcome = Raise e /\ issubclass e OSError = true)) /\
  (forall e, r = Raise e <-> outcome = Raise e /\ issubclass e OSError = false).
Proof.
  cbv zeta.
  unfold send_notification, try_except, bind, urlopen_status.
  destruct (urlopen env _ _ _) as [status|e].
  - destruct (Z.leb_spec 200 status) as [Hlo|Hlo],
             (Z.ltb_spec status 300) as [Hhi|Hhi]; simpl.
    1: { split; [|split].
         - split; [intros _; exists status; split; [reflexivity|lia] | reflexivity].
         - split; [discriminate|].
           intros [[s [[= <-] Hs]]|[e [He _]]]; [lia|discriminate He].
         - intros e; split; [discriminate | intros [He _]; discriminate He]. }
    all: split; [|split].
    all: try (split; [discriminate | intros [s [[= <-] Hs]]; lia]).
    all: try (split; [intros _; left; exists status; split; [reflexivity|lia]
                     | reflexivity]).
    all: intros e; split; [discriminate | intros [He _]; discriminate He].
  - rewrite handles_webhook_errors.
    destruct (issubclass e OSError) eqn:Hsub; simpl.
    + split; [|split].
      * split; [discriminate | intros [s [Hs _]]; discriminate Hs].
      * split; [intros _; right; exists e; auto | reflexivity].
      * intros e'; split; [discriminate | intros [[= <-] Hf]; congruence].
    + split; [|split].
      * split; [discriminate | intros [s [Hs _]]; discriminate Hs].
      * split; [discriminate|].
        intros [[s [Hs _]]|[e' [[= <-] Hs]]]; [discriminate Hs|congruence].
      * intros e'; split.
        -- intros [= <-]. auto.
        -- intros [[= <-] _]. reflexivity.
Qed.

End Notifier.

(** C6, as the claim states it, fails: a webhook URL without a scheme makes
    [Request] raise [ValueError], which the [except] clause does not name,
    so the call returns neither [True] nor [False]. *)
Lemma send_notification_lets_ValueError_out :
  fst (send_notification (failing_env ValueError) sample_config "on" ∅ fresh_machine)
    = Raise ValueError /\
  (forall b : bool,
     fst (send_notification (failing_env ValueError) sample_config "on" ∅ fresh_machine)
       <> Return b).
Proof. split; [reflexivity | intros b H; discriminate H]. Qed.

(** ** The probes *)

Section Probes.

Variable re : Regex.
Variable env : Env.
Variable cfg : Config.

Lemma handles_subprocess_errors e :
  handles [SubprocessError; TimeoutExpired] e = issubclass e SubprocessError.
Proof. destruct e; reflexivity. Qed.

(** The loop appends, in order, the captured addresses that do not start
    with "127.". *)
Lemma collect_ips_filter lines acc :
  collect_ips re lines acc =
  (acc ++ List.filter (fun ip => negb (Py.startswith "127." ip))
                      (omap (inet_address re) lines))%list.
Proof.
  revert acc; induction lines as [|line rest IH]; intros acc; simpl.
  - by rewrite app_nil_r.
  - destruct (inet_address re line) as [ip|]; simpl; [|apply IH].
    destruct (Py.startswith "127." ip); simpl; [apply IH|].
    rewrite IH, <- app_assoc. reflexivity.
Qed.

Lemma collect_ips_no_loopback lines :
  Forall (fun ip => ~ Py.StartsWith "127." ip) (collect_ips re lines []).
Proof.
  rewrite collect_ips_filter. simpl.
  apply List.Forall_forall. intros ip Hin.
  apply List.filter_In in Hin. destruct Hin as [_ Hf].
  apply startswith_false. by apply negb_true_iff.
Qed.

(** What [get_active_ipv4_addresses] does, by the outcome of the command. *)
Lemma get_active_ipv4_addresses_run (m : Machine) :
  get_active_ipv4_addresses re env m =
  match ifconfig env (ifconfig_runs (world m)) with
  | Return stdout =>
      (Return (collect_ips re (splitlines re stdout) []), on_world ran_ifconfig m)
  | Raise e =>
      if issubclass e SubprocessError
      then (Return [],
            on_world (logged WARNING (Failed_to_get_IP_addresses e))
                     (on_world ran_ifconfig m))
      else (Raise e, on_world ran_ifconfig m)
  end.
Proof.
  unfold get_active_ipv4_addresses, try_except, bind, subprocess_run_ifconfig.
  destruct (ifconfig env _) as [stdout|e]; [reflexivity|].
  rewrite handles_subprocess_errors.
  destruct (issubclass e SubprocessError); reflexivity.
Qed.

(** What [_detect_external_monitor] does, by the outcome of the command. *)
Lemma detect_external_monitor_run (m : Machine) :
  _detect_external_monitor re env m =
  match system_profiler env (profiler_runs (world m)) with
  | Return stdout =>
      (Return (if non_internal_connection (connection_types re stdout) then true
               else (2 <=? length (display_headers re stdout))%nat),
       on_world ran_profiler m)
  | Raise e =>
      if issubclass e SubprocessError
      then (Return false,
            on_world (logged WARNING (Failed_to_detect_external_monitor e))
                     (on_world ran_profiler m))
      else (Raise e, on_world ran_profiler m)
  end.
Proof.
  unfold _detect_external_monitor, try_except, bind, subprocess_run_system_profiler.
  destruct (system_profiler env _) as [stdout|e].
  - destruct (non_internal_connection _); reflexivity.
  - rewrite handles_subprocess_errors.
    destruct (issubclass e SubprocessError); reflexivity.
Qed.

(** C7: when the command does not raise an exception the probe lets through,
    [is_on_home_network] returns a pair [(is_home, ips)] in which [is_home]
    holds exactly when some address of [ips] starts with the configured
    prefix, and no address of [ips] starts with "127.". *)
Theorem is_on_home_network_spec (m : Machine) :
  (forall e, ifconfig env (ifconfig_runs (world m)) = Raise e ->
             issubclass e SubprocessError = true) ->
  exists (is_home : bool) (ips : list string) (m' : Machine),
    is_on_home_network re env cfg m = (Return (is_home, ips), m') /\
    (is_home = true <-> Exists (Py.StartsWith (home_ip_prefix cfg)) ips) /\
    (is_home = false <-> Forall (fun ip => ~ Py.StartsWith (home_ip_prefix cfg) ip) ips) /\
    Forall (fun ip => ~ Py.StartsWith "127." ip) ips.
Proof.
  intros Hcaught.
  unfold is_on_home_network, bind. rewrite get_active_ipv4_addresses_run.
  assert (Hex : forall ips : list string,
    (existsb (Py.startswith (home_ip_prefix cfg)) ips = true
       <-> Exists (Py.StartsWith (home_ip_prefix cfg)) ips) /\
    (existsb (Py.startswith (home_ip_prefix cfg)) ips = false
       <-> Forall (fun ip => ~ Py.StartsWith (home_ip_prefix cfg) ip) ips)).
  { intros ips. induction ips as [|ip ips [IHt IHf]]; simpl.
    - split; split; try discriminate; try constructor.
      intros H; inversion H.
    - split.
      + rewrite orb_true_iff, startswith_spec, IHt, List.Exists_cons. reflexivity.
      + rewrite orb_false_iff, startswith_false, IHf, List.Forall_cons_iff.
        reflexivity. }
  destruct (ifconfig env _) as [stdout|e] eqn:Hrun.
  - eexists _, _, _. split; [reflexivity|].
    split; [apply Hex|]. split; [apply Hex|]. apply collect_ips_no_loopback.
  - rewrite (Hcaught e eq_refl).
    eexists _, _, _. split; [reflexivity|].
    split; [apply Hex|]. split; [apply Hex|]. constructor.
Qed.

(** C8, as the code has it: when the command fails or times out, that is,
    [subprocess.run] raises [CalledProcessError] or [TimeoutExpired] (or
    another [SubprocessError]), the network probe returns the empty list
    and the display detection returns [False]; each logs one warning and
    raises nothing.  When the command raises an exception of another class,
    as the [OSError] of a command that cannot be started, that exception
    leaves the probe, and no warning is logged. *)
Theorem probes_fail_closed (m : Machine) (e : exn) :
  (issubclass CalledProcessError SubprocessError = true /\
   issubclass TimeoutExpired SubprocessError = true) /\
  (ifconfig env (ifconfig_runs (world m)) = Raise e ->
     (issubclass e SubprocessError = true ->
        get_active_ipv4_addresses re env m =
          (Return [],
           on_world (logged WARNING (Failed_to_get_IP_addresses e))
                    (on_world ran_ifconfig m)) /\
        fst (is_on_home_network re env cfg m) = Return (false, [])) /\
     (issubclass e SubprocessError = false ->
        get_active_ipv4_addresses re env m = (Raise e, on_world ran_ifconfig m) /\
        is_on_home_network re env cfg m = (Raise e, on_world ran_ifconfig m))) /\
  (system_profiler env (profiler_runs (world m)) = Raise e ->
     (issubclass e SubprocessError = true ->
        _detect_external_monitor re env m =
          (Return false,
           on_world (logged WARNING (Failed_to_detect_external_monitor e))
                    (on_world ran_profiler m))) /\
     (issubclass e SubprocessError = false ->
        _detect_external_monitor re env m = (Raise e, on_world ran_profiler m))).
Proof.
  split; [split; reflexivity|].
  split; intros Hrun; split; intros Hsub.
  - assert (Hget : get_active_ipv4_addresses re env m =
       (Return [],
        on_world (logged WARNING (Failed_to_get_IP_addresses e))
                 (on_world ran_ifconfig m))).
    { rewrite get_active_ipv4_addresses_run, Hrun, Hsub. reflexivity. }
    split; [exact Hget|].
    unfold is_on_home_network, bind. rewrite Hget. reflexivity.
  - assert (Hget : get_active_ipv4_addresses re env m
                   = (Raise e, on_world ran_ifconfig m)).
    { rewrite get_active_ipv4_addresses_run, Hrun, Hsub. reflexivity. }
    split; [exact Hget|].
    unfold is_on_home_network, bind. rewrite Hget. reflexivity.
  - rewrite detect_external_monitor_run, Hrun, Hsub. reflexivity.
  - rewrite detect_external_monitor_run, Hrun, Hsub. reflexivity.
Qed.

Lemma non_internal_connection_Exists (matches : list string) :
  non_internal_connection matches = true <->
  Exists (fun t => Py.lower (Py.strip t) <> "internal") matches.
Proof.
  induction matches as [|t rest IH]; simpl.
  - split; [discriminate | intros H; inversion H].
  - rewrite List.Exists_cons.
    destruct (String.eqb_spec (Py.lower (Py.strip t)) "internal") as [Heq|Hne]; simpl.
    + rewrite IH. split; [auto | intros [H|H]; [contradiction | exact H]].
    + split; auto.
Qed.

(** C9: on the output of the display query, the detection returns [True]
    when some reported connection type is, trimmed and in lower case, other
    than "internal"; when there is no such report it returns [True] exactly
    if the output has two or more display-entry headers. *)
Theorem detect_external_monitor_spec (m : Machine) (stdout : string) :
  system_profiler env (profiler_runs (world m)) = Return stdout ->
  let types := connection_types re stdout in
  let headers := display_headers re stdout in
  let r := fst (_detect_external_monitor re env m) in
  (Exists (fun t => Py.lower (Py.strip t) <> "internal") types -> r = Return true) /\
  (Forall (fun t => Py.lower (Py.strip t) = "internal") types ->
     (2 <= length headers -> r = Return true) /\
     (length headers < 2 -> r = Return false)).
Proof.
  intros Hrun. cbv zeta.
  rewrite detect_external_monitor_run, Hrun. cbn [fst].
  split.
  - intros H. apply non_internal_connection_Exists in H. by rewrite H.
  - intros Hall.
    destruct (non_internal_connection (connection_types re stdout)) eqn:E.
    + apply non_internal_connection_Exists in E.
      apply List.Exists_exists in E. destruct E as [t [Hin Hne]].
      rewrite List.Forall_forall in Hall. destruct (Hne (Hall t Hin)).
    + split; intros Hn.
      * apply Nat.leb_le in Hn. by rewrite Hn.
      * apply Nat.leb_gt in Hn. by rewrite Hn.
Qed.

(** The detection leaves the monitor object alone and runs the display
    query once, whatever the query answers. *)
Lemma detect_external_monitor_frame (m : Machine) :
  self (snd (_detect_external_monitor re env m)) = self m /\
  profiler_runs (world (snd (_detect_external_monitor re env m)))
    = S (profiler_runs (world m)) /\
  clock_reads (world (snd (_detect_external_monitor re env m)))
    = clock_reads (world m).
Proof.
  rewrite detect_external_monitor_run.
  destruct (system_profiler env _) as [stdout|e]; [auto|].
  destruct (issubclass e SubprocessError); auto.
Qed.

(** A call that finds the cache empty or expired. *)
Lemma has_external_monitor_miss (m : Machine) :
  let now := time_time env (clock_reads (world m)) in
  let ttl := inject_Z (displays_cache_ttl_seconds cfg) in
  let si := _system_info (self m) in
  _display_cache si = None \/ (ttl <= now - _cache_timestamp si)%Q ->
  has_external_monitor re env cfg m =
  match _detect_external_monitor re env (on_world tick m) with
  | (Return v, m1) =>
      (Return v,
       mkMachine (mkCameraMonitor (mkSystemInfo (Some v) now)
                                  (_last_state (self m)) (_last_sent (self m)))
                 (world m1))
  | (Raise e, m1) => (Raise e, m1)
  end.
Proof.
  cbv zeta. intros Hmiss.
  unfold has_external_monitor, bind, time_now, get_self. cbn [self on_world].
  assert (Hinvalid :
    match _display_cache (_system_info (self m)) with
    | Some _ =>
        Qltb (time_time env (clock_reads (world m))
              - _cache_timestamp (_system_info (self m)))%Q
             (inject_Z (displays_cache_ttl_seconds cfg))
    | None => false
    end = false).
  { destruct Hmiss as [->|Hge]; [reflexivity|].
    destruct (_display_cache _); [|reflexivity]. by apply Qltb_ge. }
  rewrite Hinvalid. cbn [negb].
  pose proof (detect_external_monitor_frame (on_world tick m)) as [Hself _].
  destruct (_detect_external_monitor re env (on_world tick m)) as [[v|e] m1];
    [|reflexivity].
  cbn [snd] in Hself. unfold set_display_cache, ret. cbn. rewrite Hself.
  reflexivity.
Qed.

(** A call that finds a value captured less than the TTL ago. *)
Lemma has_external_monitor_hit (m : Machine) (v : bool) :
  let now := time_time env (clock_reads (world m)) in
  let ttl := inject_Z (displays_cache_ttl_seconds cfg) in
  let si := _system_info (self m) in
  _display_cache si = Some v -> (now - _cache_timestamp si < ttl)%Q ->
  has_external_monitor re env cfg m = (Return v, on_world tick m).
Proof.
  cbv zeta. intros Hcache Hlt.
  unfold has_external_monitor, bind, time_now, get_self. cbn [self on_world].
  rewrite Hcache. apply Qltb_lt in Hlt. rewrite Hlt. cbn. rewrite Hcache.
  reflexivity.
Qed.

(** After a call that returned [v], the cache holds [v]. *)
Lemma has_external_monitor_returns_cache (m m1 : Machine) (v : bool) :
  has_external_monitor re env cfg m = (Return v, m1) ->
  _display_cache (_system_info (self m1)) = Some v.
Proof.
  intros Hcall.
  destruct (_display_cache (_system_info (self m))) as [c|] eqn:Hcache.
  - destruct (Qltb (time_time env (clock_reads (world m))
                    - _cache_timestamp (_system_info (self m)))%Q
                   (inject_Z (displays_cache_ttl_seconds cfg))) eqn:Hlt.
    + apply Qltb_lt in Hlt.
      rewrite (has_external_monitor_hit m c Hcache Hlt) in Hcall.
      injection Hcall as <- <-. exact Hcache.
    + apply Qltb_ge in Hlt.
      rewrite (has_external_monitor_miss m (or_intror Hlt)) in Hcall.
      destruct (_detect_external_monitor re env (on_world tick m)) as [[b|e] m2];
        [|discriminate Hcall].
      injection Hcall as <- <-. reflexivity.
  - rewrite (has_external_monitor_miss m (or_introl Hcache)) in Hcall.
    destruct (_detect_external_monitor re env (on_world tick m)) as [[b|e] m2];
      [|discriminate Hcall].
    injection Hcall as <- <-. reflexivity.
Qed.

(** C4: a call of [has_external_monitor] at clock reading [now].  If no
    value is cached or [now - _cache_timestamp >= TTL], the detection is run
    (one more display query), and the value it returns becomes both the
    result and the cached value, with [now] as the new time stamp.
    Otherwise the cached value is returned, the cache is left as it was and
    no query is run.  Hence a second call less than the TTL after the
    capture returns what the first call returned, without another query. *)
Theorem has_external_monitor_cache (m : Machine) :
  let now := time_time env (clock_reads (world m)) in
  let ttl := inject_Z (displays_cache_ttl_seconds cfg) in
  let si := _system_info (self m) in
  let out := has_external_monitor re env cfg m in
  ((_display_cache si = None \/ (ttl <= now - _cache_timestamp si)%Q) ->
     profiler_runs (world (snd out)) = S (profiler_runs (world m)) /\
     (forall v m1,
        _detect_external_monitor re env (on_world tick m) = (Return v, m1) ->
        fst out = Return v /\
        _system_info (self (snd out)) = mkSystemInfo (Some v) now)) /\
  (forall v,
     _display_cache si = Some v -> (now - _cache_timestamp si < ttl)%Q ->
     fst out = Return v /\
     _system_info (self (snd out)) = si /\
     profiler_runs (world (snd out)) = profiler_runs (world m)) /\
  (forall v m1,
     out = (Return v, m1) ->
     (time_time env (clock_reads (world m1))
        - _cache_timestamp (_system_info (self m1)) < ttl)%Q ->
     fst (has_external_monitor re env cfg m1) = Return v /\
     _system_info (self (snd (has_external_monitor re env cfg m1)))
       = _system_info (self m1) /\
     profiler_runs (world (snd (has_external_monitor re env cfg m1)))
       = profiler_runs (world m1)).
Proof.
  cbv zeta. split; [|split].
  - intros Hmiss. rewrite (has_external_monitor_miss m Hmiss).
    pose proof (detect_external_monitor_frame (on_world tick m)) as [_ [Hruns _]].
    destruct (_detect_external_monitor re env (on_world tick m)) as [[b|e] m2];
      cbn [fst snd] in *.
    + split; [exact Hruns|]. intros v m1 [= <- <-]. split; reflexivity.
    + split; [exact Hruns|]. intros v m1 H. discriminate H.
  - intros v Hcache Hlt. rewrite (has_external_monitor_hit m v Hcache Hlt).
    repeat split.
  - intros v m1 Hcall Hlt.
    pose proof (has_external_monitor_returns_cache m m1 v Hcall) as Hcache.
    rewrite (has_external_monitor_hit m1 v Hcache Hlt). repeat split.
Qed.

End Probes.

(** C8, as the claim states it, fails: when a command cannot be started,
    [subprocess.run] raises [FileNotFoundError], an [OSError] that the
    [except] clauses at lines 54 and 84 do not name; both probes raise it
    to their caller and log no warning. *)
Lemma probes_let_OSError_out :
  get_active_ipv4_addresses sample_regex (failing_env FileNotFoundError) fresh_machine
    = (Raise FileNotFoundError, on_world ran_ifconfig fresh_machine) /\
  _detect_external_monitor sample_regex (failing_env FileNotFoundError) fresh_machine
    = (Raise FileNotFoundError, on_world ran_profiler fresh_machine) /\
  log (world (on_world ran_ifconfig fresh_machine)) = [] /\
  log (world (on_world ran_profiler fresh_machine)) = [].
Proof. repeat split. Qed.

(** ** The monitor *)

Section Monitor.

Variable re : Regex.
Variable env : Env.
Variable cfg : Config.

Lemma state_eqb_eq (state : string) (last : option string) :
  state_eqb state last = true <-> last = Some state.
Proof.
  destruct last as [s|]; simpl; [|split; discriminate].
  rewrite String.eqb_eq. split; congruence.
Qed.

Lemma should_debounce_run (state : string) (m : Machine) :
  _should_debounce env cfg state m =
  (Return (state_eqb state (_last_state (self m)) &&
           Qltb (time_time env (clock_reads (world m)) - _last_sent (self m))%Q
                (debounce_seconds cfg)),
   on_world tick m).
Proof. reflexivity. Qed.

(** [_should_debounce] answers [True] exactly on the debounce condition. *)
Lemma should_debounce_true (state : string) (m : Machine) :
  fst (_should_debounce env cfg state m) = Return true <->
  _last_state (self m) = Some state /\
  (time_time env (clock_reads (world m)) - _last_sent (self m)
     < debounce_seconds cfg)%Q.
Proof.
  rewrite should_debounce_run. cbn [fst].
  rewrite <- state_eqb_eq, <- Qltb_lt, <- andb_true_iff.
  split; [intros [= ->]; reflexivity | intros ->; reflexivity].
Qed.

(** The network probe runs [ifconfig] once and touches neither the monitor
    object, nor the clock, nor the webhook. *)
Lemma is_on_home_network_frame (m : Machine) :
  let m' := snd (is_on_home_network re env cfg m) in
  self m' = self m /\
  ifconfig_runs (world m') = S (ifconfig_runs (world m)) /\
  clock_reads (world m') = clock_reads (world m) /\
  webhook_posts (world m') = webhook_posts (world m) /\
  runtime_stores (world m') = runtime_stores (world m).
Proof.
  cbv zeta. unfold is_on_home_network, bind.
  rewrite get_active_ipv4_addresses_run.
  destruct (ifconfig env _) as [stdout|e]; [cbn; auto 10|].
  destruct (issubclass e SubprocessError); cbn; auto 10.
Qed.

(** The display probe reads the clock once and touches neither the runtime
    state of the monitor, nor [ifconfig], nor the webhook. *)
Lemma has_external_monitor_frame (m : Machine) :
  let m' := snd (has_external_monitor re env cfg m) in
  _last_state (self m') = _last_state (self m) /\
  _last_sent (self m') = _last_sent (self m) /\
  ifconfig_runs (world m') = ifconfig_runs (world m) /\
  clock_reads (world m') = S (clock_reads (world m)) /\
  webhook_posts (world m') = webhook_posts (world m) /\
  runtime_stores (world m') = runtime_stores (world m).
Proof.
  cbv zeta.
  unfold has_external_monitor, bind, time_now, get_self. cbn [self on_world].
  destruct (negb _).
  - rewrite detect_external_monitor_run. cbn [world on_world profiler_runs tick].
    destruct (system_profiler env _) as [stdout|e]; [cbn; auto 10|].
    destruct (issubclass e SubprocessError); cbn; auto 10.
  - cbn. destruct (_display_cache _); cbn; auto 10.
Qed.

(** The notifier issues one request and touches neither the monitor object,
    nor the clock, nor the commands. *)
Lemma send_notification_frame (state : string) (metadata : dict) (m : Machine) :
  let m' := snd (send_notification env cfg state metadata m) in
  self m' = self m /\
  ifconfig_runs (world m') = ifconfig_runs (world m) /\
  clock_reads (world m') = clock_reads (world m) /\
  runtime_stores (world m') = runtime_stores (world m) /\
  webhook_posts (world m') =
    (webhook_posts (world m)
       ++ [(webhook_url cfg, dict_unpack {[ "state" := VStr state ]} metadata)])%list /\
  exists more, log (world m') = (log (world m) ++ more)%list.
Proof.
  cbv zeta. unfold send_notification, try_except, bind, urlopen_status.
  destruct (urlopen env _ _ _) as [status|e].
  - destruct ((200 <=? status)%Z && (status <? 300)%Z); cbn;
      repeat split; eexists; reflexivity.
  - rewrite handles_webhook_errors.
    destruct (issubclass e OSError); cbn; repeat split;
      [eexists; reflexivity | exists []; by rewrite app_nil_r].
Qed.

(** [_conditions_met], by what the two probes return. *)
Lemma conditions_met_run (m : Machine) :
  _conditions_met re env cfg m =
  match is_on_home_network re env cfg m with
  | (Return (is_home, ips), m1) =>
      match has_external_monitor re env cfg m1 with
      | (Return has_external, m2) =>
          (Return
             ((if require_home_network cfg then is_home else true) &&
              (if require_external_monitor cfg then has_external else true),
              <[ "external_monitor" := VBool has_external ]>
                (<[ "ip_addresses" := VList ips ]>
                   (<[ "home_network" := VBool is_home ]> (∅ : dict)))),
           m2)
      | (Raise e, m2) => (Raise e, m2)
      end
  | (Raise e, m1) => (Raise e, m1)
  end.
Proof.
  unfold _conditions_met, bind.
  destruct (is_on_home_network re env cfg m) as [[[is_home ips]|e] m1]; [|reflexivity].
  destruct (has_external_monitor re env cfg m1) as [[has_external|e] m2]; [|reflexivity].
  unfold ret.
  destruct (require_home_network cfg), (require_external_monitor cfg);
    cbn [andb]; rewrite ?andb_true_r; reflexivity.
Qed.

(** The loop body on a line that carries an event. *)
Lemma run_body_event (line state : string) (m : Machine) :
  Py.contains "Filtering the log data using" line = false ->
  _parse_camera_state line = Some state ->
  run_body re env cfg line m =
  if state_eqb state (_last_state (self m)) &&
     Qltb (time_time env (clock_reads (world m)) - _last_sent (self m))%Q
          (debounce_seconds cfg)
  then (Return tt, on_world tick m)
  else
    match _conditions_met re env cfg (on_world tick m) with
    | (Return (conditions_ok, metadata), m1) =>
        let m2 := on_world (logged INFO (Camera_Conditions state metadata)) m1 in
        let after_send :=
          if conditions_ok
          then match send_notification env cfg state metadata m2 with
               | (Return _, m3) => (Return tt, m3)
               | (Raise e, m3) => (Raise e, m3)
               end
          else (Return tt, m2) in
        match after_send with
        | (Return _, m3) =>
            (Return tt,
             mkMachine
               (mkCameraMonitor (_system_info (self m3)) (Some state)
                                (time_time env (clock_reads (world m3))))
               (stored (stored (tick (world m3)))))
        | (Raise e, m3) => (Raise e, m3)
        end
    | (Raise e, m1) => (Raise e, m1)
    end.
Proof.
  intros Hmarker Hparse. unfold run_body. rewrite Hmarker, Hparse.
  assert (Hstate : String.eqb state "on" || String.eqb state "off" = true).
  { destruct (parse_camera_state_on_off line state Hparse) as [-> | ->]; reflexivity. }
  assert (Hbody : forall k : M unit,
    match Some state with
    | None | Some "" => ret tt
    | Some _ => k
    end = k).
  { intros k.
    destruct (parse_camera_state_on_off line state Hparse) as [-> | ->]; reflexivity. }
  etransitivity; [apply (f_equal (fun k : M unit => k m)); apply Hbody|].
  unfold bind at 1. rewrite should_debounce_run.
  destruct (state_eqb _ _ && Qltb _ _); [reflexivity|].
  unfold bind at 1.
  destruct (_conditions_met re env cfg (on_world tick m)) as [[[ok md]|e] m1];
    [|reflexivity].
  unfold bind at 1. unfold logger at 1. rewrite Hstate, andb_true_r.
  cbv zeta. unfold bind at 1.
  destruct ok.
  - unfold bind at 1.
    destruct (send_notification env cfg state md _) as [[b|e] m3]; reflexivity.
  - reflexivity.
Qed.

(** An event that is not debounced has the conditions evaluated: the
    network probe is run, whatever happens afterwards. *)
Lemma run_body_evaluates (line state : string) (m : Machine) :
  Py.contains "Filtering the log data using" line = false ->
  _parse_camera_state line = Some state ->
  fst (_should_debounce env cfg state m) <> Return true ->
  ifconfig_runs (world (snd (run_body re env cfg line m))) = S (ifconfig_runs (world m)).
Proof.
  intros Hmarker Hparse Hno.
  rewrite (run_body_event line state m Hmarker Hparse).
  rewrite should_debounce_run in Hno. cbn [fst] in Hno.
  destruct (state_eqb _ _ && Qltb _ _); [congruence|].
  rewrite conditions_met_run.
  pose proof (is_on_home_network_frame (on_world tick m)) as (_ & Hif1 & _).
  cbv zeta in Hif1.
  destruct (is_on_home_network re env cfg (on_world tick m)) as [[[is_home ips]|e] m1];
    cbn in Hif1; [|exact Hif1].
  pose proof (has_external_monitor_frame m1) as (_ & _ & Hif2 & _).
  cbv zeta in Hif2.
  destruct (has_external_monitor re env cfg m1) as [[has_external|e] m2];
    cbn [snd] in Hif2; [|cbn; congruence].
  cbv zeta.
  destruct (_ && _).
  - match goal with |- context [send_notification env cfg state ?md ?mm] =>
      pose proof (send_notification_frame state md mm) as (_ & Hif3 & _);
      cbv zeta in Hif3;
      destruct (send_notification env cfg state md mm) as [[b|e] m3]
    end; cbn in *; congruence.
  - cbn. congruence.
Qed.

(** C2: an event with state [state], arriving when the clock reads [now],
    is suppressed exactly when [state] is the last recorded state and
    [now - _last_sent] is below the debounce duration.  Suppressed means
    that the loop body ends having done nothing but read the clock: the
    monitor object, the probes, the webhook and the log are as they were.
    An event of another state than the last recorded one is never
    suppressed: its conditions are evaluated. *)
Theorem debounce_suppresses_iff (line state : string) (m : Machine) :
  Py.contains "Filtering the log data using" line = false ->
  _parse_camera_state line = Some state ->
  let now := time_time env (clock_reads (world m)) in
  let within :=
    _last_state (self m) = Some state /\
    (now - _last_sent (self m) < debounce_seconds cfg)%Q in
  (fst (_should_debounce env cfg state m) = Return true <-> within) /\
  (run_body re env cfg line m = (Return tt, on_world tick m) <-> within) /\
  (_last_state (self m) <> Some state ->
     run_body re env cfg line m <> (Return tt, on_world tick m) /\
     ifconfig_runs (world (snd (run_body re env cfg line m)))
       = S (ifconfig_runs (world m))).
Proof.
  intros Hmarker Hparse. cbv zeta.
  pose proof (should_debounce_true state m) as Hdeb.
  assert (Hrun : run_body re env cfg line m = (Return tt, on_world tick m) <->
                 fst (_should_debounce env cfg state m) = Return true).
  { split.
    - intros Hsame.
      destruct (_should_debounce env cfg state m) as [[[|]|e] m0] eqn:Hd;
        [reflexivity| |]; exfalso;
        (assert (Hno : fst (_should_debounce env cfg state m) <> Return true)
           by (rewrite Hd; discriminate));
        pose proof (run_body_evaluates line state m Hmarker Hparse Hno) as Hev;
        rewrite Hsame in Hev; cbn in Hev; lia.
    - intros Hyes. rewrite (run_body_event line state m Hmarker Hparse).
      rewrite should_debounce_run in Hyes. cbn [fst] in Hyes.
      injection Hyes as ->. reflexivity. }
  split; [exact Hdeb|]. split; [by rewrite Hrun|].
  intros Hother.
  assert (Hno : fst (_should_debounce env cfg state m) <> Return true).
  { rewrite Hdeb. intros [Hlast _]. contradiction. }
  split; [by rewrite Hrun|].
  exact (run_body_evaluates line state m Hmarker Hparse Hno).
Qed.

(** Evaluating the conditions reads the clock once and stores nothing into
    the runtime state; it issues no request. *)
Lemma conditions_met_frame (m : Machine) :
  let m' := snd (_conditions_met re env cfg m) in
  (forall r, fst (_conditions_met re env cfg m) = Return r ->
             clock_reads (world m') = S (clock_reads (world m))) /\
  webhook_posts (world m') = webhook_posts (world m) /\
  runtime_stores (world m') = runtime_stores (world m).
Proof.
  cbv zeta. rewrite conditions_met_run.
  pose proof (is_on_home_network_frame m) as (_ & _ & Hc1 & Hp1 & Hs1).
  cbv zeta in Hc1, Hp1, Hs1.
  destruct (is_on_home_network re env cfg m) as [[[is_home ips]|e] m1];
    cbn [fst snd] in *; [|split; [discriminate|auto]].
  pose proof (has_external_monitor_frame m1) as (_ & _ & _ & Hc2 & Hp2 & Hs2).
  cbv zeta in Hc2, Hp2, Hs2.
  destruct (has_external_monitor re env cfg m1) as [[has_external|e] m2];
    cbn [fst snd] in *.
  - repeat split; congruence.
  - split; [discriminate|split; congruence].
Qed.

(** C3: a non-debounced event with state [state] whose conditions were
    evaluated and whose notification, if one was due, returned (with [True]
    or with [False]): the loop body ends normally, [_last_state] is [state]
    and [_last_sent] is the reading of the clock taken after the
    notification attempt, the latest one; each of the two attributes was
    assigned once. *)
Theorem runtime_state_updated
    (line state : string) (m m1 : Machine) (conditions_ok : bool) (metadata : dict) :
  Py.contains "Filtering the log data using" line = false ->
  _parse_camera_state line = Some state ->
  fst (_should_debounce env cfg state m) = Return false ->
  _conditions_met re env cfg (on_world tick m) = (Return (conditions_ok, metadata), m1) ->
  (conditions_ok = true ->
   exists sent : bool,
     fst (send_notification env cfg state metadata
            (on_world (logged INFO (Camera_Conditions state metadata)) m1))
       = Return sent) ->
  exists m' : Machine,
    run_body re env cfg line m = (Return tt, m') /\
    _last_state (self m') = Some state /\
    _last_sent (self m') = time_time env (clock_reads (world m) + 2) /\
    clock_reads (world m') = clock_reads (world m) + 3 /\
    runtime_stores (world m') = runtime_stores (world m) + 2.
Proof.
  intros Hmarker Hparse Hdeb Hcond Hsend.
  rewrite (run_body_event line state m Hmarker Hparse).
  rewrite should_debounce_run in Hdeb. cbn [fst] in Hdeb. injection Hdeb as ->.
  pose proof (conditions_met_frame (on_world tick m)) as (Hclock & _ & Hstores).
  cbv zeta in Hclock, Hstores. rewrite Hcond in *. cbn [fst snd] in *.
  specialize (Hclock _ eq_refl). cbn in Hclock, Hstores.
  cbv zeta.
  destruct conditions_ok.
  - destruct (Hsend eq_refl) as [sent Hsent].
    pose proof (send_notification_frame state metadata
                  (on_world (logged INFO (Camera_Conditions state metadata)) m1))
      as (_ & _ & Hc & Hs & _).
    cbv zeta in Hc, Hs.
    destruct (send_notification env cfg state metadata _) as [[b|e] m3];
      cbn [fst snd] in *; [|discriminate Hsent].
    cbn in Hc, Hs.
    eexists. split; [reflexivity|]. cbn.
    rewrite Hc, Hs, Hclock, Hstores.
    repeat split; try (f_equal; lia); lia.
  - eexists. split; [reflexivity|]. cbn.
    rewrite Hclock, Hstores.
    repeat split; try (f_equal; lia); lia.
Qed.

(** C5: a non-debounced event for which the two probes returned [is_home],
    [ips] and [has_external].  [conditions_ok] is [True] restricted by
    [is_home] if the home network is required and by [has_external] if an
    external monitor is required.  The metadata has the three keys
    "home_network", "ip_addresses" and "external_monitor" with these values,
    whatever the gates are; it is logged with the event, and a request is
    issued, carrying the state and the three metadata entries, exactly when
    [conditions_ok] holds. *)
Theorem conditions_gate_dispatch
    (line state : string) (m m1 m2 : Machine)
    (is_home : bool) (ips : list string) (has_external : bool) :
  Py.contains "Filtering the log data using" line = false ->
  _parse_camera_state line = Some state ->
  fst (_should_debounce env cfg state m) = Return false ->
  is_on_home_network re env cfg (on_world tick m) = (Return (is_home, ips), m1) ->
  has_external_monitor re env cfg m1 = (Return has_external, m2) ->
  let conditions_ok :=
    (if require_home_network cfg then is_home else true) &&
    (if require_external_monitor cfg then has_external else true) in
  let metadata : dict :=
    <[ "external_monitor" := VBool has_external ]>
      (<[ "ip_addresses" := VList ips ]>
         (<[ "home_network" := VBool is_home ]> ∅)) in
  let payload : dict := <[ "state" := VStr state ]> metadata in
  let out := snd (run_body re env cfg line m) in
  _conditions_met re env cfg (on_world tick m) = (Return (conditions_ok, metadata), m2) /\
  (conditions_ok = true <->
     (require_home_network cfg = true -> is_home = true) /\
     (require_external_monitor cfg = true -> has_external = true)) /\
  (dom metadata = {[ "home_network"; "ip_addresses"; "external_monitor" ]} /\
   metadata !! "home_network" = Some (VBool is_home) /\
   metadata !! "ip_addresses" = Some (VList ips) /\
   metadata !! "external_monitor" = Some (VBool has_external)) /\
  (exists more,
     log (world out)
       = (log (world m2) ++ (INFO, Camera_Conditions state metadata) :: more)%list) /\
  webhook_posts (world out)
    = (webhook_posts (world m)
         ++ (if conditions_ok then [(webhook_url cfg, payload)] else []))%list.
Proof.
  intros Hmarker Hparse Hdeb Hhome Hext. cbv zeta.
  assert (Hcond : _conditions_met re env cfg (on_world tick m) =
    (Return
       ((if require_home_network cfg then is_home else true) &&
        (if require_external_monitor cfg then has_external else true),
        <[ "external_monitor" := VBool has_external ]>
          (<[ "ip_addresses" := VList ips ]>
             (<[ "home_network" := VBool is_home ]> (∅ : dict)))), m2)).
  { rewrite conditions_met_run, Hhome, Hext. reflexivity. }
  split; [exact Hcond|].
  split.
  { destruct (require_home_network cfg), (require_external_monitor cfg),
      is_home, has_external; cbn; intuition congruence. }
  split.
  { split; [reflexivity|]. repeat split. }
  pose proof (conditions_met_frame (on_world tick m)) as (_ & Hposts & _).
  cbv zeta in Hposts. rewrite Hcond in Hposts. cbn in Hposts.
  rewrite (run_body_event line state m Hmarker Hparse).
  rewrite should_debounce_run in Hdeb. cbn [fst] in Hdeb. injection Hdeb as ->.
  rewrite Hcond. cbv zeta.
  destruct (_ && _).
  - match goal with |- context [send_notification env cfg state ?md ?mm] =>
      pose proof (send_notification_frame state md mm) as (_ & _ & _ & _ & Hp & more & Hl);
      cbv zeta in Hp, Hl;
      destruct (send_notification env cfg state md mm) as [[b|e] m3]
    end; cbn in Hp, Hl |- *; rewrite Hp, Hl, Hposts, dict_unpack_union.
    all: split; [exists more; by rewrite <- app_assoc|].
    all: do 3 f_equal; symmetry; apply insert_union_singleton_r; reflexivity.
  - cbn. split; [by exists []|]. by rewrite Hposts, app_nil_r.
Qed.

End Monitor.

(** ** The statements, exercised on the sample inputs *)

(** The sample line carries an "on" event and is not the banner of the log
    tool. *)
Example camera_on_line_parses :
  Py.contains "Filtering the log data using" camera_on_line = false /\
  _parse_camera_state camera_on_line = Some "on".
Proof. split; reflexivity. Qed.

(** An "on" event two seconds after the last "on" is suppressed. *)
Lemma debounce_suppresses_iff_witness :
  run_body sample_regex (calm_env displays_with_external 200) sample_config
           camera_on_line recently_on
    = (Return tt, on_world tick recently_on).
Proof.
  apply (proj1 (proj2 (debounce_suppresses_iff
           sample_regex (calm_env displays_with_external 200) sample_config
           camera_on_line "on" recently_on eq_refl eq_refl))).
  split; [reflexivity | vm_compute; reflexivity].
Defined.

(** The first "on" event of a run, at home with an external monitor: the
    webhook answers 200 and the runtime state is updated. *)
Lemma runtime_state_updated_witness :
  exists m' : Machine,
    run_body sample_regex (calm_env displays_with_external 200) sample_config
             camera_on_line fresh_machine = (Return tt, m') /\
    _last_state (self m') = Some "on" /\
    _last_sent (self m') = 1002%Q /\
    clock_reads (world m') = 3 /\
    runtime_stores (world m') = 2.
Proof.
  eapply (runtime_state_updated
            sample_regex (calm_env displays_with_external 200) sample_config
            camera_on_line "on" fresh_machine _ _ _ eq_refl eq_refl eq_refl).
  - reflexivity.
  - intros _. exists true. reflexivity.
Defined.

(** The same event when the webhook answers 500: nothing differs in the
    runtime state. *)
Example failed_delivery_same_runtime_state :
  self (snd (run_body sample_regex (calm_env displays_with_external 500)
                      sample_config camera_on_line fresh_machine))
  = self (snd (run_body sample_regex (calm_env displays_with_external 200)
                        sample_config camera_on_line fresh_machine)).
Proof. reflexivity. Qed.

(** At home with only the built-in display and both gates set: the
    conditions fail, the metadata is complete and no request is issued. *)
Lemma conditions_gate_dispatch_witness :
  fst (_conditions_met sample_regex (calm_env displays_built_in 200) sample_config
         (on_world tick fresh_machine))
    = Return (false,
              <[ "external_monitor" := VBool false ]>
                (<[ "ip_addresses" := VList ["192.168.137.5"] ]>
                   (<[ "home_network" := VBool true ]> ∅))) /\
  webhook_posts
    (world (snd (run_body sample_regex (calm_env displays_built_in 200) sample_config
                          camera_on_line fresh_machine))) = [].
Proof.
  pose proof (conditions_gate_dispatch
                sample_regex (calm_env displays_built_in 200) sample_config
                camera_on_line "on" fresh_machine _ _ true ["192.168.137.5"] false
                eq_refl eq_refl eq_refl eq_refl eq_refl) as H.
  cbv zeta in H. destruct H as (Hcond & _ & _ & _ & Hposts).
  split; [rewrite Hcond; reflexivity | exact Hposts].
Defined.

(** The addresses of the sample [ifconfig] output: the loopback address is
    dropped and the remaining one is on the home network. *)
Lemma is_on_home_network_spec_witness :
  exists (is_home : bool) (ips : list string) (m' : Machine),
    is_on_home_network sample_regex (calm_env displays_built_in 200) sample_config
                       fresh_machine = (Return (is_home, ips), m') /\
    (is_home = true <-> Exists (Py.StartsWith "192.168.137.") ips) /\
    (is_home = false <-> Forall (fun ip => ~ Py.StartsWith "192.168.137." ip) ips) /\
    Forall (fun ip => ~ Py.StartsWith "127." ip) ips.
Proof.
  apply (is_on_home_network_spec
           sample_regex (calm_env displays_built_in 200) sample_config fresh_machine).
  intros e H. discriminate H.
Defined.

(** Both commands timing out. *)
Lemma probes_fail_closed_witness :
  fst (get_active_ipv4_addresses sample_regex (failing_env TimeoutExpired) fresh_machine)
    = Return [] /\
  log (world (snd (get_active_ipv4_addresses sample_regex (failing_env TimeoutExpired)
                                             fresh_machine)))
    = [(WARNING, Failed_to_get_IP_addresses TimeoutExpired)] /\
  fst (_detect_external_monitor sample_regex (failing_env TimeoutExpired) fresh_machine)
    = Return false /\
  log (world (snd (_detect_external_monitor sample_regex (failing_env TimeoutExpired)
                                            fresh_machine)))
    = [(WARNING, Failed_to_detect_external_monitor TimeoutExpired)].
Proof.
  destruct (probes_fail_closed
              sample_regex (failing_env TimeoutExpired) sample_config
              fresh_machine TimeoutExpired)
    as (_ & Hnet & Hdisplay).
  destruct (proj1 (Hnet eq_refl) eq_refl) as [Hget _].
  rewrite Hget, (proj1 (Hdisplay eq_refl) eq_refl). repeat split.
Defined.

(** A DisplayPort connection next to the internal one. *)
Lemma detect_external_monitor_spec_witness :
  fst (_detect_external_monitor sample_regex (calm_env displays_with_external 200)
                                fresh_machine) = Return true.
Proof.
  apply (proj1 (detect_external_monitor_spec
                  sample_regex (calm_env displays_with_external 200)
                  fresh_machine displays_with_external eq_refl)).
  apply List.Exists_cons_tl, List.Exists_cons_hd. vm_compute. discriminate.
Defined.

(** A connection type followed by a no-break space (U+00A0) is trimmed as
    [str.strip] trims it, and "Internal" in any letter case is internal. *)
Example strip_no_break_space :
  Py.lower (Py.strip (" Internal" ++ Py.of_bytes [194; 160] ++ " ")) = "internal" /\
  non_internal_connection ["INTERNAL" ++ Py.of_bytes [226; 128; 175]] = false.
Proof. split; reflexivity. Qed.

(** Only the internal connection and one header: no external monitor. *)
Example detect_built_in_only :
  fst (_detect_external_monitor sample_regex (calm_env displays_built_in 200)
                                fresh_machine) = Return false.
Proof. reflexivity. Qed.

(** The display cache within and after its TTL of 15 seconds: a value
    captured at 990 is served at 1000 without a query, and refreshed when
    the clock reads 1005 or more. *)
Example display_cache_hit :
  has_external_monitor sample_regex (calm_env displays_built_in 200) sample_config
                       recently_on
  = (Return true, on_world tick recently_on).
Proof. reflexivity. Qed.

Example display_cache_expired :
  let late := on_world (fun w => mkWorld 5 0 0 [] [] 0) recently_on in
  fst (has_external_monitor sample_regex (calm_env displays_built_in 200) sample_config
                            late) = Return false /\
  _system_info (self (snd (has_external_monitor sample_regex
                             (calm_env displays_built_in 200) sample_config late)))
    = mkSystemInfo (Some false) 1005%Q /\
  profiler_runs (world (snd (has_external_monitor sample_regex
                               (calm_env displays_built_in 200) sample_config late)))
    = 1.
Proof. repeat split. Qed.

(** A metadata dictionary with a key "state" overrides the state argument. *)
Example payload_state_collision :
  snd <$> webhook_posts
    (world (snd (send_notification (calm_env displays_built_in 200) sample_config "on"
                   {[ "state" := VStr "off" ]} fresh_machine)))
  = [ ({[ "state" := VStr "off" ]} : dict) ].
Proof. reflexivity. Qed.

(** ** Further properties of the loop *)

Section Loop.

Variable re : Regex.
Variable env : Env.
Variable cfg : Config.

Lemma carries_event_true (line : string) :
  carries_event line = true <->
  Py.contains "Filtering the log data using" line = false /\
  exists state, _parse_camera_state line = Some state.
Proof.
  unfold carries_event. rewrite andb_true_iff, negb_true_iff.
  destruct (_parse_camera_state line) as [state|].
  - split; intros [H _]; (split; [exact H|]); eauto.
  - split; intros [_ H]; [discriminate H | destruct H as [state H]; discriminate H].
Qed.

Lemma run_body_no_event (line : string) (m : Machine) :
  carries_event line = false -> run_body re env cfg line m = (Return tt, m).
Proof.
  unfold carries_event, run_body. intros H.
  destruct (Py.contains "Filtering the log data using" line); [reflexivity|].
  destruct (_parse_camera_state line); [discriminate H|reflexivity].
Qed.

(** The probes only add to the log. *)
Lemma conditions_met_log (m : Machine) :
  exists more,
    log (world (snd (_conditions_met re env cfg m))) = (log (world m) ++ more)%list.
Proof.
  rewrite conditions_met_run. unfold is_on_home_network, bind.
  rewrite get_active_ipv4_addresses_run.
  assert (Hext : forall m1, exists more,
    log (world (snd (has_external_monitor re env cfg m1)))
      = (log (world m1) ++ more)%list).
  { intros m1. unfold has_external_monitor, bind, time_now, get_self.
    cbn [self on_world]. destruct (negb _).
    - rewrite detect_external_monitor_run. cbn [world on_world profiler_runs tick].
      destruct (system_profiler env _) as [stdout|e];
        [exists []; cbn; by rewrite app_nil_r|].
      destruct (issubclass e SubprocessError); cbn;
        [eexists; reflexivity | exists []; by rewrite app_nil_r].
    - cbn. destruct (_display_cache _); exists []; cbn; by rewrite app_nil_r. }
  destruct (ifconfig env _) as [stdout|e].
  - unfold ret. cbn [fst snd].
    match goal with |- context [has_external_monitor re env cfg ?mm] =>
      destruct (Hext mm) as [more Hmore];
      destruct (has_external_monitor re env cfg mm) as [[b|e] m2]
    end; cbn [snd] in *; exists more; rewrite Hmore; reflexivity.
  - destruct (issubclass e SubprocessError).
    + unfold ret. cbn [fst snd].
      match goal with |- context [has_external_monitor re env cfg ?mm] =>
        destruct (Hext mm) as [more Hmore];
        destruct (has_external_monitor re env cfg mm) as [[b|e'] m2]
      end; cbn [snd] in *; eexists; rewrite Hmore; cbn; rewrite <- app_assoc;
        reflexivity.
    + exists []. cbn. by rewrite app_nil_r.
Qed.

(** The clock is never read backwards by the condition evaluation. *)
Lemma conditions_met_clock (m : Machine) :
  clock_reads (world m) <= clock_reads (world (snd (_conditions_met re env cfg m))).
Proof.
  rewrite conditions_met_run.
  pose proof (is_on_home_network_frame re env cfg m) as (_ & _ & Hc1 & _).
  cbv zeta in Hc1.
  destruct (is_on_home_network re env cfg m) as [[[is_home ips]|e] m1];
    cbn [snd] in *; [|lia].
  pose proof (has_external_monitor_frame re env cfg m1) as (_ & _ & _ & Hc2 & _).
  cbv zeta in Hc2.
  destruct (has_external_monitor re env cfg m1) as [[b|e] m2]; cbn [snd] in *; lia.
Qed.

(** A body that respects the gates, from met conditions. *)
Lemma payload_respects_gates (state : string) (is_home has_external : bool)
    (ips : list string) :
  state = "on" \/ state = "off" ->
  (if require_home_network cfg then is_home else true) &&
  (if require_external_monitor cfg then has_external else true) = true ->
  respects_gates cfg
    (dict_unpack {[ "state" := VStr state ]}
       (<[ "external_monitor" := VBool has_external ]>
          (<[ "ip_addresses" := VList ips ]>
             (<[ "home_network" := VBool is_home ]> (∅ : dict))))).
Proof.
  intros Hstate Hok. apply andb_true_iff in Hok. destruct Hok as [Hhome Hext].
  rewrite dict_unpack_union. unfold respects_gates.
  split; [reflexivity|].
  split; [destruct Hstate as [-> | ->]; [left|right]; reflexivity|].
  split; [exists ips; reflexivity|].
  split.
  - exists is_home. split; [reflexivity|]. intros Hreq. by rewrite Hreq in Hhome.
  - exists has_external. split; [reflexivity|]. intros Hreq. by rewrite Hreq in Hext.
Qed.

(** One iteration on a line that carries an event: the clock is read, and
    at most one request is added, which respects the gates; the log grows. *)
Lemma run_body_event_step (line : string) (m : Machine) :
  carries_event line = true ->
  let m' := snd (run_body re env cfg line m) in
  S (clock_reads (world m)) <= clock_reads (world m') /\
  (exists more, log (world m') = (log (world m) ++ more)%list) /\
  exists new,
    webhook_posts (world m') = (webhook_posts (world m) ++ new)%list /\
    length new <= 1 /\
    Forall (fun post => fst post = webhook_url cfg /\ respects_gates cfg (snd post)) new.
Proof.
  intros Hev. apply carries_event_true in Hev. destruct Hev as [Hmarker [state Hparse]].
  cbv zeta. rewrite (run_body_event re env cfg line state m Hmarker Hparse).
  destruct (state_eqb _ _ && Qltb _ _).
  { cbn. split; [lia|]. split; [exists []; by rewrite app_nil_r|].
    exists []. rewrite app_nil_r. repeat split; [simpl; lia | constructor]. }
  pose proof (conditions_met_clock (on_world tick m)) as Hclock.
  pose proof (conditions_met_log (on_world tick m)) as [more1 Hlog].
  pose proof (conditions_met_frame re env cfg (on_world tick m)) as (_ & Hposts & _).
  cbv zeta in Hposts.
  pose proof (conditions_met_run re env cfg (on_world tick m)) as Hrun.
  destruct (_conditions_met re env cfg (on_world tick m)) as [[[ok md]|e] m1];
    cbn [snd] in *; cbn in Hclock, Hlog, Hposts.
  2: { split; [lia|]. split; [exists more1; exact Hlog|].
       exists []. rewrite app_nil_r. repeat split; [exact Hposts | simpl; lia | constructor]. }
  cbv zeta. destruct ok.
  - pose proof (send_notification_frame env cfg state md
                  (on_world (logged INFO (Camera_Conditions state md)) m1))
      as (_ & _ & Hc & _ & Hp & more2 & Hl).
    cbv zeta in Hc, Hp, Hl.
    assert (Hgood : respects_gates cfg (dict_unpack {[ "state" := VStr state ]} md)).
    { destruct (is_on_home_network re env cfg (on_world tick m))
        as [[[is_home ips]|e] m0]; [|discriminate Hrun].
      destruct (has_external_monitor re env cfg m0) as [[has_external|e] m2];
        [|discriminate Hrun].
      injection Hrun as Hok -> _.
      apply payload_respects_gates;
        [exact (parse_camera_state_on_off line state Hparse) | by rewrite <- Hok]. }
    destruct (send_notification env cfg state md _) as [[b|e] m3];
      cbn [snd] in *; cbn in Hc, Hp, Hl |- *.
    all: split; [lia|].
    all: split; [rewrite Hl, Hlog, <- !app_assoc; eexists; reflexivity|].
    all: eexists; split; [rewrite Hp, Hposts; reflexivity|].
    all: split; [simpl; lia|].
    all: constructor; [split; [reflexivity|exact Hgood] | constructor].
  - cbn. split; [lia|].
    split; [rewrite Hlog, <- app_assoc; eexists; reflexivity|].
    exists []. rewrite app_nil_r. repeat split; [exact Hposts | simpl; lia | constructor].
Qed.

(** X1: the loop body leaves everything as it was, the clock included,
    exactly on the lines that contain the banner of the log tool or neither
    of the two state markers; on every other line it reads the clock. *)
Theorem run_body_ignores_iff (line : string) (m : Machine) :
  run_body re env cfg line m = (Return tt, m) <->
  Py.Contains "Filtering the log data using" line \/
  (~ Py.Contains "running -> 1" line /\ ~ Py.Contains "running -> 0" line).
Proof.
  assert (Hcases : carries_event line = false <->
    Py.Contains "Filtering the log data using" line \/
    (~ Py.Contains "running -> 1" line /\ ~ Py.Contains "running -> 0" line)).
  { unfold carries_event, _parse_camera_state. rewrite <- !contains_spec.
    destruct (Py.contains "Filtering the log data using" line),
             (Py.contains "running -> 1" line),
             (Py.contains "running -> 0" line); cbn; intuition congruence. }
  rewrite <- Hcases. split.
  - intros Hsame. destruct (carries_event line) eqn:Hev; [|reflexivity].
    pose proof (run_body_event_step line m Hev) as [Hclock _].
    cbv zeta in Hclock. rewrite Hsame in Hclock. cbn in Hclock. lia.
  - apply run_body_no_event.
Qed.

Lemma run_lines_app (before after : list string) (m : Machine) :
  run_lines re env cfg (before ++ after) m =
  match run_lines re env cfg before m with
  | (Return _, m1) => run_lines re env cfg after m1
  | (Raise e, m1) => (Raise e, m1)
  end.
Proof.
  revert m; induction before as [|line before IH]; intros m; [reflexivity|].
  cbn [app run_lines]. unfold bind.
  destruct (run_body re env cfg line m) as [[[]|e] m1]; [apply IH|reflexivity].
Qed.

Lemma exception_kinds (e : exn) :
  issubclass e KeyboardInterrupt = true \/
  (issubclass e KeyboardInterrupt = false /\ issubclass e Exception = true).
Proof. destruct e; cbn; auto. Qed.

(** X2: an exception that leaves one iteration ends the loop of [run]: the
    lines after it are not processed, whatever they are, and the handlers
    log one record, "Monitoring stopped by user" for a [KeyboardInterrupt]
    and "Monitoring failed" for any other exception. *)
Theorem run_stops_at_exception
    (before after : list string) (line : string) (m m1 m2 : Machine) (e : exn) :
  run_lines re env cfg before (on_world (logged INFO Starting_camera_monitor) m)
    = (Return tt, m1) ->
  run_body re env cfg line m1 = (Raise e, m2) ->
  snd (run re env cfg (before ++ line :: after) m) =
  on_world
    (if issubclass e KeyboardInterrupt
     then logged INFO Monitoring_stopped_by_user
     else logged ERROR (Monitoring_failed e)) m2.
Proof.
  intros Hbefore Hline. unfold run, bind, logger.
  rewrite run_lines_app, Hbefore. cbn [run_lines]. unfold bind. rewrite Hline.
  destruct (exception_kinds e) as [Hk | [Hk Hx]]; rewrite Hk; [reflexivity|].
  rewrite Hx. reflexivity.
Qed.

(** Requests over a sequence of iterations. *)
Lemma run_lines_posts (lines : list string) (m : Machine) :
  let m' := snd (run_lines re env cfg lines m) in
  (exists more, log (world m') = (log (world m) ++ more)%list) /\
  exists new,
    webhook_posts (world m') = (webhook_posts (world m) ++ new)%list /\
    length new <= length (List.filter carries_event lines) /\
    Forall (fun post => fst post = webhook_url cfg /\ respects_gates cfg (snd post)) new.
Proof.
  cbv zeta. revert m; induction lines as [|line lines IH]; intros m.
  { cbn. split; [exists []; by rewrite app_nil_r|].
    exists []. rewrite app_nil_r. repeat split; [simpl; lia | constructor]. }
  cbn [run_lines List.filter]. unfold bind.
  destruct (carries_event line) eqn:Hev.
  - pose proof (run_body_event_step line m Hev) as (_ & [more1 Hl1] & new1 & Hp1 & Hn1 & Hg1).
    cbv zeta in Hl1, Hp1.
    destruct (run_body re env cfg line m) as [[[]|e] m1]; cbn [snd] in *.
    + destruct (IH m1) as ([more2 Hl2] & new2 & Hp2 & Hn2 & Hg2).
      split; [exists (more1 ++ more2)%list; by rewrite Hl2, Hl1, app_assoc|].
      exists (new1 ++ new2)%list.
      split; [by rewrite Hp2, Hp1, app_assoc|].
      split; [rewrite length_app; cbn [length]; lia|].
      apply List.Forall_app. split; assumption.
    + split; [exists more1; exact Hl1|].
      exists new1. split; [exact Hp1|]. split; [cbn [length]; lia | exact Hg1].
  - rewrite (run_body_no_event line m Hev). apply IH.
Qed.

(** X3: over a whole run, whatever the lines and the answers of the outside
    world, every request that is issued goes to the configured URL and
    carries "on" or "off" with the three metadata entries, with
    [home_network] true if the home network is required and
    [external_monitor] true if an external monitor is required; there is at
    most one request per line that carries an event, and earlier requests
    and log records are kept. *)
Theorem run_posts_respect_gates (lines : list string) (m : Machine) :
  let m' := snd (run re env cfg lines m) in
  (exists more,
     log (world m')
       = (log (world m) ++ (INFO, Starting_camera_monitor) :: more)%list) /\
  exists new,
    webhook_posts (world m') = (webhook_posts (world m) ++ new)%list /\
    length new <= length (List.filter carries_event lines) /\
    Forall (fun post => fst post = webhook_url cfg /\ respects_gates cfg (snd post)) new.
Proof.
  cbv zeta. unfold run, bind, logger.
  pose proof (run_lines_posts lines (on_world (logged INFO Starting_camera_monitor) m))
    as ([more Hlog] & new & Hposts & Hlen & Hgood).
  cbv zeta in Hlog, Hposts. cbn in Hlog, Hposts.
  destruct (run_lines re env cfg lines _) as [[[]|e] m1]; cbn [snd] in *.
  - split; [exists more; by rewrite Hlog, <- app_assoc|].
    exists new. auto.
  - destruct (exception_kinds e) as [Hk | [Hk Hx]]; rewrite Hk; [|rewrite Hx]; cbn.
    all: split; [rewrite Hlog, <- !app_assoc; eexists; reflexivity|].
    all: exists new; auto.
Qed.

(** An event is suppressed exactly within the debounce window of its own
    state. *)
Lemma run_body_suppressed (line state : string) (m : Machine) :
  Py.contains "Filtering the log data using" line = false ->
  _parse_camera_state line = Some state ->
  run_body re env cfg line m = (Return tt, on_world tick m) <->
  _last_state (self m) = Some state /\
  (time_time env (clock_reads (world m)) - _last_sent (self m)
     < debounce_seconds cfg)%Q.
Proof.
  intros Hmarker Hparse. rewrite <- should_debounce_true. split.
  - intros Hsame.
    destruct (_should_debounce env cfg state m) as [[[|]|e] m0] eqn:Hd;
      [reflexivity| |]; exfalso;
      (assert (Hno : fst (_should_debounce env cfg state m) <> Return true)
         by (rewrite Hd; discriminate));
      pose proof (run_body_evaluates re env cfg line state m Hmarker Hparse Hno) as Hev;
      rewrite Hsame in Hev; cbn in Hev; lia.
  - intros Hyes. rewrite (run_body_event re env cfg line state m Hmarker Hparse).
    rewrite should_debounce_run in Hyes. cbn [fst] in Hyes.
    injection Hyes as ->. reflexivity.
Qed.

(** An iteration that was not suppressed and ended normally leaves the
    state of its event and the latest clock reading behind. *)
Lemma run_body_completed (line state : string) (m m' : Machine) :
  Py.contains "Filtering the log data using" line = false ->
  _parse_camera_state line = Some state ->
  fst (_should_debounce env cfg state m) = Return false ->
  run_body re env cfg line m = (Return tt, m') ->
  _last_state (self m') = Some state /\
  exists n, clock_reads (world m') = S n /\ _last_sent (self m') = time_time env n.
Proof.
  intros Hmarker Hparse Hdeb Hrun.
  rewrite (run_body_event re env cfg line state m Hmarker Hparse) in Hrun.
  rewrite should_debounce_run in Hdeb. cbn [fst] in Hdeb. injection Hdeb as Hdeb.
  rewrite Hdeb in Hrun.
  destruct (_conditions_met re env cfg (on_world tick m)) as [[[ok md]|e] m1];
    [|discriminate Hrun].
  cbv zeta in Hrun. destruct ok.
  - destruct (send_notification env cfg state md _) as [[b|e] m3];
      [|discriminate Hrun].
    injection Hrun as <-. cbn. split; [reflexivity|]. eexists. split; reflexivity.
  - injection Hrun as <-. cbn. split; [reflexivity|]. eexists. split; reflexivity.
Qed.

(** X4: after an event that was processed to the end, whether or not a
    notification was due and whether or not it was delivered, a following
    event of the same state is suppressed exactly when the clock reading of
    its debounce check is less than the debounce duration after the reading
    that ended the first event; a failed delivery is not tried again inside
    the window. *)
Theorem repeated_event_window (line1 line2 state : string) (m m' : Machine) :
  Py.contains "Filtering the log data using" line1 = false ->
  _parse_camera_state line1 = Some state ->
  Py.contains "Filtering the log data using" line2 = false ->
  _parse_camera_state line2 = Some state ->
  fst (_should_debounce env cfg state m) = Return false ->
  run_body re env cfg line1 m = (Return tt, m') ->
  exists n,
    clock_reads (world m') = S n /\
    (run_body re env cfg line2 m' = (Return tt, on_world tick m') <->
     (time_time env (S n) - time_time env n < debounce_seconds cfg)%Q).
Proof.
  intros Hm1 Hp1 Hm2 Hp2 Hdeb Hrun.
  destruct (run_body_completed line1 state m m' Hm1 Hp1 Hdeb Hrun)
    as (Hstate & n & Hclock & Hsent).
  exists n. split; [exact Hclock|].
  rewrite (run_body_suppressed line2 state m' Hm2 Hp2), Hclock, Hsent.
  split; [intros [_ H]; exact H | intros H; split; [exact Hstate | exact H]].
Qed.

End Loop.

(** ** Edge and error behaviour *)

Section Edges.

Variable re : Regex.
Variable env : Env.
Variable cfg : Config.

(** X5: with a debounce duration of zero or less, and a clock that has not
    gone back behind [_last_sent], no event is suppressed: the conditions
    of every event are evaluated. *)
Theorem nonpositive_debounce_never_suppresses (line state : string) (m : Machine) :
  Py.contains "Filtering the log data using" line = false ->
  _parse_camera_state line = Some state ->
  (debounce_seconds cfg <= 0)%Q ->
  (_last_sent (self m) <= time_time env (clock_reads (world m)))%Q ->
  run_body re env cfg line m <> (Return tt, on_world tick m) /\
  ifconfig_runs (world (snd (run_body re env cfg line m))) = S (ifconfig_runs (world m)).
Proof.
  intros Hmarker Hparse Hzero Hclock.
  assert (Hno : fst (_should_debounce env cfg state m) <> Return true).
  { rewrite should_debounce_true. intros [_ Hlt]. lra. }
  split; [|exact (run_body_evaluates re env cfg line state m Hmarker Hparse Hno)].
  rewrite (run_body_suppressed re env cfg line state m Hmarker Hparse).
  intros [_ Hlt]. lra.
Qed.

(** X6: when the clock reads no more than [_last_sent], as after the system
    clock was set back, and the debounce duration is positive, an event of
    the last recorded state is suppressed, however long ago that state was
    recorded in real time. *)
Theorem clock_set_back_suppresses (line state : string) (m : Machine) :
  Py.contains "Filtering the log data using" line = false ->
  _parse_camera_state line = Some state ->
  _last_state (self m) = Some state ->
  (0 < debounce_seconds cfg)%Q ->
  (time_time env (clock_reads (world m)) <= _last_sent (self m))%Q ->
  run_body re env cfg line m = (Return tt, on_world tick m).
Proof.
  intros Hmarker Hparse Hlast Hpos Hback.
  apply (run_body_suppressed re env cfg line state m Hmarker Hparse).
  split; [exact Hlast | lra].
Qed.

Lemma inject_Z_nonpos (z : Z) : (z <= 0)%Z -> (inject_Z z <= 0)%Q.
Proof. intros H. change 0%Q with (inject_Z 0). by rewrite <- Zle_Qle. Qed.

Lemma inject_Z_nonneg (z : Z) : (0 <= z)%Z -> (0 <= inject_Z z)%Q.
Proof. intros H. change 0%Q with (inject_Z 0). by rewrite <- Zle_Qle. Qed.

(** X7: with a TTL of zero or less, and a clock that has not gone back
    behind the time stamp of the cache, every call of
    [has_external_monitor] runs the display query: nothing is served from
    the cache. *)
Theorem nonpositive_ttl_always_probes (m : Machine) :
  (displays_cache_ttl_seconds cfg <= 0)%Z ->
  (_cache_timestamp (_system_info (self m))
     <= time_time env (clock_reads (world m)))%Q ->
  profiler_runs (world (snd (has_external_monitor re env cfg m)))
    = S (profiler_runs (world m)).
Proof.
  intros Hzero Hclock. apply inject_Z_nonpos in Hzero.
  rewrite (has_external_monitor_miss re env cfg m) by (right; lra).
  pose proof (detect_external_monitor_frame re env (on_world tick m)) as (_ & Hruns & _).
  destruct (_detect_external_monitor re env (on_world tick m)) as [[v|e] m1];
    cbn [snd] in *; exact Hruns.
Qed.

(** X8: when the clock reads less than the time stamp of the cache and the
    TTL is not negative, the cached value is served without a query: a
    clock that was set back keeps the cache alive until it has caught up. *)
Theorem clock_set_back_keeps_cache (m : Machine) (v : bool) :
  _display_cache (_system_info (self m)) = Some v ->
  (0 <= displays_cache_ttl_seconds cfg)%Z ->
  (time_time env (clock_reads (world m))
     < _cache_timestamp (_system_info (self m)))%Q ->
  has_external_monitor re env cfg m = (Return v, on_world tick m).
Proof.
  intros Hcache Httl Hback. apply inject_Z_nonneg in Httl.
  apply (has_external_monitor_hit re env cfg m v Hcache). lra.
Qed.

(** X9: a display query that fails or times out while the cache is empty
    or expired is cached like an answer: the call returns [False] after one
    warning, [False] is stored with the current time, and a call within the
    TTL after it returns [False] without asking again. *)
Theorem failed_detection_is_cached (m : Machine) (e : exn) :
  let now := time_time env (clock_reads (world m)) in
  let ttl := inject_Z (displays_cache_ttl_seconds cfg) in
  _display_cache (_system_info (self m)) = None \/
    (ttl <= now - _cache_timestamp (_system_info (self m)))%Q ->
  system_profiler env (profiler_runs (world m)) = Raise e ->
  issubclass e SubprocessError = true ->
  exists m1,
    has_external_monitor re env cfg m = (Return false, m1) /\
    _system_info (self m1) = mkSystemInfo (Some false) now /\
    log (world m1)
      = (log (world m) ++ [(WARNING, Failed_to_detect_external_monitor e)])%list /\
    ((time_time env (clock_reads (world m1)) - now < ttl)%Q ->
     has_external_monitor re env cfg m1 = (Return false, on_world tick m1)).
Proof.
  cbv zeta. intros Hmiss Hrun Hsub.
  rewrite (has_external_monitor_miss re env cfg m Hmiss).
  rewrite detect_external_monitor_run. cbn [world on_world profiler_runs tick].
  rewrite Hrun, Hsub.
  eexists. split; [reflexivity|]. split; [reflexivity|]. split; [reflexivity|].
  intros Hwithin.
  apply (has_external_monitor_hit re env cfg _ false); [reflexivity | exact Hwithin].
Qed.

(** X10: when [ifconfig] raises an exception that the network probe does
    not handle (an [OSError] for a command that cannot be started, say),
    the iteration of a non-debounced event stops there with that exception:
    the display query is not run, nothing is logged or sent, and the monitor
    object is as before. *)
Theorem probe_exception_aborts_iteration (line state : string) (m : Machine) (e : exn) :
  Py.contains "Filtering the log data using" line = false ->
  _parse_camera_state line = Some state ->
  fst (_should_debounce env cfg state m) = Return false ->
  ifconfig env (ifconfig_runs (world m)) = Raise e ->
  issubclass e SubprocessError = false ->
  run_body re env cfg line m = (Raise e, on_world ran_ifconfig (on_world tick m)).
Proof.
  intros Hmarker Hparse Hdeb Hrun Hsub.
  rewrite (run_body_event re env cfg line state m Hmarker Hparse).
  rewrite should_debounce_run in Hdeb. cbn [fst] in Hdeb. injection Hdeb as ->.
  rewrite conditions_met_run. unfold is_on_home_network, bind.
  rewrite get_active_ipv4_addresses_run. cbn [world on_world ifconfig_runs tick].
  rewrite Hrun, Hsub. reflexivity.
Qed.

(** X11: a call of [send_notification] that returns has logged exactly one
    record: the INFO record of a delivery when it returns [True], an ERROR
    record when it returns [False]; an exception that leaves the call is
    not logged by it. *)
Theorem send_notification_logs (state : string) (metadata : dict) (m : Machine) :
  let out := send_notification env cfg state metadata m in
  (fst out = Return true ->
     log (world (snd out))
       = (log (world m) ++ [(INFO, Webhook_sent_successfully_to (webhook_url cfg))])%list) /\
  (fst out = Return false ->
     exists msg, log (world (snd out)) = (log (world m) ++ [(ERROR, msg)])%list) /\
  (forall e, fst out = Raise e -> log (world (snd out)) = log (world m)).
Proof.
  cbv zeta. unfold send_notification, try_except, bind, urlopen_status.
  destruct (urlopen env _ _ _) as [status|e].
  - destruct ((200 <=? status)%Z && (status <? 300)%Z); cbn;
      (split; [|split]); try discriminate; try reflexivity; eauto.
  - rewrite handles_webhook_errors.
    destruct (issubclass e OSError); cbn;
      (split; [|split]); try discriminate; try reflexivity; eauto.
Qed.

(** X12: the edge cases of the home-network test.  Without any address
    (no interface up, or a failed probe) the host is not on the home
    network, whatever the prefix; with the empty prefix every address
    counts, so that the host is on the home network as soon as there is
    an address. *)
Theorem home_network_edge_cases (m : Machine) :
  (forall e, ifconfig env (ifconfig_runs (world m)) = Raise e ->
             issubclass e SubprocessError = true) ->
  exists (is_home : bool) (ips : list string) (m' : Machine),
    is_on_home_network re env cfg m = (Return (is_home, ips), m') /\
    (ips = [] -> is_home = false) /\
    (home_ip_prefix cfg = "" -> ips <> [] -> is_home = true).
Proof.
  intros Hcaught. unfold is_on_home_network, bind.
  rewrite get_active_ipv4_addresses_run.
  assert (Hedge : forall ips : list string,
    (ips = [] -> existsb (Py.startswith (home_ip_prefix cfg)) ips = false) /\
    (home_ip_prefix cfg = "" -> ips <> [] ->
     existsb (Py.startswith (home_ip_prefix cfg)) ips = true)).
  { intros ips. split; [intros ->; reflexivity|].
    intros -> Hne. destruct ips as [|ip ips]; [contradiction|reflexivity]. }
  destruct (ifconfig env _) as [stdout|e] eqn:Hrun.
  - eexists _, _, _. split; [reflexivity|]. apply Hedge.
  - rewrite (Hcaught e eq_refl). eexists _, _, _. split; [reflexivity|]. apply Hedge.
Qed.

(** X13: when [ifconfig] succeeds, the probe returns the addresses the
    pattern captures, one at most per line of the output, in the order of
    the lines and with repetitions kept, without those that start with
    "127."; it logs nothing. *)
Theorem active_addresses_in_line_order (m : Machine) (stdout : string) :
  ifconfig env (ifconfig_runs (world m)) = Return stdout ->
  let captured := omap (inet_address re) (splitlines re stdout) in
  let ips := List.filter (fun ip => negb (Py.startswith "127." ip)) captured in
  get_active_ipv4_addresses re env m = (Return ips, on_world ran_ifconfig m) /\
  length ips <= length (splitlines re stdout).
Proof.
  intros Hrun. cbv zeta.
  rewrite get_active_ipv4_addresses_run, Hrun, collect_ips_filter.
  split; [reflexivity|].
  etransitivity; [apply List.filter_length_le|].
  generalize (splitlines re stdout) as lines.
  induction lines as [|line lines IH]; [reflexivity|].
  cbn [omap list_omap]. destruct (inet_address re line); cbn [length]; lia.
Qed.

(** X14: with neither requirement set, the conditions of an event are met
    whatever the probes report, a failed probe included: every event that
    is not debounced and whose probes return issues one request. *)
Theorem no_requirements_always_notify
    (line state : string) (m m1 : Machine) (conditions_ok : bool) (metadata : dict) :
  require_home_network cfg = false ->
  require_external_monitor cfg = false ->
  Py.contains "Filtering the log data using" line = false ->
  _parse_camera_state line = Some state ->
  fst (_should_debounce env cfg state m) = Return false ->
  _conditions_met re env cfg (on_world tick m) = (Return (conditions_ok, metadata), m1) ->
  conditions_ok = true /\
  webhook_posts (world (snd (run_body re env cfg line m)))
    = (webhook_posts (world m)
         ++ [(webhook_url cfg, dict_unpack {[ "state" := VStr state ]} metadata)])%list.
Proof.
  intros Hhome Hext Hmarker Hparse Hdeb Hcond.
  pose proof (conditions_met_frame re env cfg (on_world tick m)) as (_ & Hposts & _).
  cbv zeta in Hposts. rewrite Hcond in Hposts. cbn in Hposts.
  assert (Hok : conditions_ok = true).
  { rewrite conditions_met_run in Hcond.
    destruct (is_on_home_network re env cfg (on_world tick m))
      as [[[is_home ips]|e] m0]; [|discriminate Hcond].
    destruct (has_external_monitor re env cfg m0) as [[has_external|e] m2];
      [|discriminate Hcond].
    injection Hcond as <- _ _. by rewrite Hhome, Hext. }
  split; [exact Hok|]. subst conditions_ok.
  rewrite (run_body_event re env cfg line state m Hmarker Hparse).
  rewrite should_debounce_run in Hdeb. cbn [fst] in Hdeb. injection Hdeb as ->.
  rewrite Hcond. cbv zeta.
  pose proof (send_notification_frame env cfg state metadata
                (on_world (logged INFO (Camera_Conditions state metadata)) m1))
    as (_ & _ & _ & _ & Hp & _).
  cbv zeta in Hp.
  destruct (send_notification env cfg state metadata _) as [[b|e] m3];
    cbn in Hp |- *; by rewrite Hp, Hposts.
Qed.

(** Evaluating the conditions leaves the runtime state of the monitor
    alone. *)
Lemma conditions_met_runtime (m : Machine) :
  _last_state (self (snd (_conditions_met re env cfg m))) = _last_state (self m) /\
  _last_sent (self (snd (_conditions_met re env cfg m))) = _last_sent (self m).
Proof.
  rewrite conditions_met_run.
  pose proof (is_on_home_network_frame re env cfg m) as (Hself & _).
  cbv zeta in Hself.
  destruct (is_on_home_network re env cfg m) as [[[is_home ips]|e] m1];
    cbn [snd] in *; [|by rewrite Hself].
  pose proof (has_external_monitor_frame re env cfg m1) as (Hs & Ht & _).
  cbv zeta in Hs, Ht.
  destruct (has_external_monitor re env cfg m1) as [[b|e] m2]; cbn [snd] in *;
    by rewrite Hs, Ht, Hself.
Qed.

(** X17: when [send_notification] lets an exception out (a [ValueError]
    for a webhook URL without a scheme, say), the iteration stops with that
    exception before the runtime state is assigned: [_last_state] and
    [_last_sent] keep their values. *)
Theorem notifier_exception_skips_update
    (line state : string) (m m1 : Machine) (metadata : dict) (e : exn) :
  Py.contains "Filtering the log data using" line = false ->
  _parse_camera_state line = Some state ->
  fst (_should_debounce env cfg state m) = Return false ->
  _conditions_met re env cfg (on_world tick m) = (Return (true, metadata), m1) ->
  fst (send_notification env cfg state metadata
         (on_world (logged INFO (Camera_Conditions state metadata)) m1)) = Raise e ->
  fst (run_body re env cfg line m) = Raise e /\
  _last_state (self (snd (run_body re env cfg line m))) = _last_state (self m) /\
  _last_sent (self (snd (run_body re env cfg line m))) = _last_sent (self m) /\
  runtime_stores (world (snd (run_body re env cfg line m))) = runtime_stores (world m).
Proof.
  intros Hmarker Hparse Hdeb Hcond Hsend.
  pose proof (conditions_met_runtime (on_world tick m)) as [Hstate Hsent].
  pose proof (conditions_met_frame re env cfg (on_world tick m)) as (_ & _ & Hstores).
  cbv zeta in Hstores. rewrite Hcond in Hstate, Hsent, Hstores.
  cbn in Hstate, Hsent, Hstores.
  rewrite (run_body_event re env cfg line state m Hmarker Hparse).
  rewrite should_debounce_run in Hdeb. cbn [fst] in Hdeb. injection Hdeb as ->.
  rewrite Hcond. cbv zeta.
  pose proof (send_notification_frame env cfg state metadata
                (on_world (logged INFO (Camera_Conditions state metadata)) m1))
    as (Hself & _ & _ & Hs & _).
  cbv zeta in Hself, Hs.
  destruct (send_notification env cfg state metadata _) as [[b|e'] m3];
    cbn [fst snd] in *; [discriminate Hsend|].
  injection Hsend as ->. cbn in Hself, Hs.
  rewrite Hself, Hs. cbn. auto.
Qed.

Lemma startswith_trans (p q s : string) :
  Py.startswith p q = true -> Py.startswith q s = true -> Py.startswith p s = true.
Proof.
  rewrite !startswith_spec. intros [r1 ->] [r2 ->].
  exists (r1 ++ r2). clear.
  induction p as [|a p IH]; [reflexivity|].
  rewrite !append_cons. by rewrite IH.
Qed.

End Edges.

(** X18: the home-network test is a test on text: under a configuration
    whose prefix is an initial part of the prefix of another one, the probe
    returns the same addresses, and the host is on the home network
    whenever it is under the longer prefix. *)
Theorem shorter_prefix_matches_more
    (re : Regex) (env : Env) (short long : Config) (m : Machine) :
  Py.startswith (home_ip_prefix short) (home_ip_prefix long) = true ->
  match is_on_home_network re env long m, is_on_home_network re env short m with
  | (Return (home_long, ips_long), _), (Return (home_short, ips_short), _) =>
      ips_short = ips_long /\ (home_long = true -> home_short = true)
  | (Raise e_long, _), (Raise e_short, _) => e_long = e_short
  | _, _ => False
  end.
Proof.
  intros Hprefix. unfold is_on_home_network, bind.
  destruct (get_active_ipv4_addresses re env m) as [[ips|e] m1]; [|reflexivity].
  unfold ret. split; [reflexivity|].
  induction ips as [|ip ips IH]; [discriminate|].
  cbn [existsb]. rewrite !orb_true_iff. intros [H|H].
  - left. exact (startswith_trans _ _ _ Hprefix H).
  - right. exact (IH H).
Qed.

(** ** Start-up *)

(** X15: the two requirements of the configuration.  A flag on the command
    line decides; without a flag the environment variable decides, and it
    counts as set only if its value is "true" in some letter case; without
    flag and variable the requirement is set. *)
Theorem parse_arguments_gates
    (conv : Conversions) (environ : gmap string string) (cli : CommandLine)
    (config : Config) :
  parse_arguments conv environ cli = Return config ->
  let from_environment key :=
    match environ !! key with
    | Some value => String.eqb (Py.lower value) "true"
    | None => true
    end in
  require_home_network config =
    match given_home_network_flag cli with
    | Some flag => flag
    | None => from_environment "REQUIRE_HOME_NETWORK"
    end /\
  require_external_monitor config =
    match given_external_monitor_flag cli with
    | Some flag => flag
    | None => from_environment "REQUIRE_EXTERNAL_MONITOR"
    end.
Proof.
  unfold parse_arguments, parse_args, getenv. cbv zeta.
  destruct (py_float conv _) as [d|]; [|discriminate].
  destruct (py_int conv _) as [t|]; [|discriminate].
  intros [= <-]. cbn [require_home_network require_external_monitor
                      args_require_home_network args_no_require_home_network
                      args_require_external_monitor args_no_require_external_monitor].
  split.
  - destruct (given_home_network_flag cli) as [[|]|]; cbn;
      [reflexivity | reflexivity |].
    destruct (environ !! "REQUIRE_HOME_NETWORK"); reflexivity.
  - destruct (given_external_monitor_flag cli) as [[|]|]; cbn;
      [reflexivity | reflexivity |].
    destruct (environ !! "REQUIRE_EXTERNAL_MONITOR"); reflexivity.
Qed.

(** X16: the texts of DEBOUNCE_SECONDS and DISPLAYS_CACHE_TTL_SECONDS (or
    their defaults "5.0" and "15") are converted before the command line is
    read.  When [float] or [int] refuses one of them, [parse_arguments]
    raises [ValueError] whatever the command line is, also when the command
    line gives that value itself, and [main] ends with it before a monitor
    exists: nothing is logged and no command is run. *)
Theorem parse_arguments_converts_environment_first
    (conv : Conversions) (environ : gmap string string) (cli : CommandLine) :
  py_float conv (getenv environ "DEBOUNCE_SECONDS" "5.0") = None \/
  py_int conv (getenv environ "DISPLAYS_CACHE_TTL_SECONDS" "15") = None ->
  parse_arguments conv environ cli = Raise ValueError /\
  forall (re : Regex) (env : Env) (lines : list string) (w : World),
    main re env conv environ cli lines w = (Raise ValueError, w).
Proof.
  intros Hbad.
  assert (Hparse : parse_arguments conv environ cli = Raise ValueError).
  { unfold parse_arguments. cbv zeta.
    destruct (py_float conv _) as [d|]; [|reflexivity].
    destruct (py_int conv _) as [t|]; [|reflexivity].
    destruct Hbad as [H|H]; discriminate H. }
  split; [exact Hparse|].
  intros re env lines w. unfold main. rewrite Hparse. reflexivity.
Qed.

(** ** The further statements, exercised on the sample inputs *)

(** [ifconfig] cannot be started: the first event ends the run, the second
    line is never looked at. *)
Lemma run_stops_at_exception_witness :
  log (world (snd (run sample_regex (failing_env FileNotFoundError) sample_config
                       [camera_on_line; camera_on_line] fresh_machine)))
    = [(INFO, Starting_camera_monitor); (ERROR, Monitoring_failed FileNotFoundError)] /\
  clock_reads (world (snd (run sample_regex (failing_env FileNotFoundError) sample_config
                               [camera_on_line; camera_on_line] fresh_machine))) = 1.
Proof.
  pose proof (run_stops_at_exception
                sample_regex (failing_env FileNotFoundError) sample_config
                [] [camera_on_line] camera_on_line fresh_machine
                (on_world (logged INFO Starting_camera_monitor) fresh_machine)
                (snd (run_body sample_regex (failing_env FileNotFoundError) sample_config
                               camera_on_line
                               (on_world (logged INFO Starting_camera_monitor)
                                         fresh_machine)))
                FileNotFoundError eq_refl eq_refl) as H.
  cbn [app] in H. rewrite H. repeat split.
Defined.

(** Two "on" lines in a row while the webhook answers 500: the second one
    is suppressed, one second after the first was processed. *)
Lemma repeated_event_window_witness :
  run_body sample_regex (calm_env displays_with_external 500) sample_config
    camera_on_line
    (snd (run_body sample_regex (calm_env displays_with_external 500) sample_config
                   camera_on_line fresh_machine))
  = (Return tt,
     on_world tick
       (snd (run_body sample_regex (calm_env displays_with_external 500) sample_config
                      camera_on_line fresh_machine))).
Proof.
  destruct (repeated_event_window
              sample_regex (calm_env displays_with_external 500) sample_config
              camera_on_line camera_on_line "on" fresh_machine
              (snd (run_body sample_regex (calm_env displays_with_external 500)
                             sample_config camera_on_line fresh_machine))
              eq_refl eq_refl eq_refl eq_refl eq_refl eq_refl)
    as (n & Hn & Hiff).
  apply Hiff. vm_compute in Hn. injection Hn as <-. vm_compute. reflexivity.
Defined.

(** Without a debounce duration, an "on" two seconds after the last "on" is
    evaluated. *)
Lemma nonpositive_debounce_never_suppresses_witness :
  ifconfig_runs
    (world (snd (run_body sample_regex (calm_env displays_built_in 200)
                          permissive_config camera_on_line recently_on))) = 1.
Proof.
  apply (nonpositive_debounce_never_suppresses
           sample_regex (calm_env displays_built_in 200) permissive_config
           camera_on_line "on" recently_on eq_refl eq_refl).
  - vm_compute. discriminate.
  - vm_compute. discriminate.
Defined.

(** The clock reads 1000 while "on" was recorded at 2000: suppressed. *)
Lemma clock_set_back_suppresses_witness :
  run_body sample_regex (calm_env displays_built_in 200) sample_config
           camera_on_line ahead_of_clock
  = (Return tt, on_world tick ahead_of_clock).
Proof.
  apply (clock_set_back_suppresses
           sample_regex (calm_env displays_built_in 200) sample_config
           camera_on_line "on" ahead_of_clock eq_refl eq_refl eq_refl).
  - vm_compute. reflexivity.
  - vm_compute. discriminate.
Defined.

(** With a TTL of zero a value cached ten seconds ago is not served. *)
Lemma nonpositive_ttl_always_probes_witness :
  profiler_runs
    (world (snd (has_external_monitor sample_regex (calm_env displays_built_in 200)
                                      permissive_config recently_on))) = 1.
Proof.
  apply (nonpositive_ttl_always_probes
           sample_regex (calm_env displays_built_in 200) permissive_config recently_on).
  - vm_compute. discriminate.
  - vm_compute. discriminate.
Defined.

(** A value cached at 2000 is served when the clock reads 1000. *)
Lemma clock_set_back_keeps_cache_witness :
  has_external_monitor sample_regex (calm_env displays_built_in 200) sample_config
                       ahead_of_clock
  = (Return true, on_world tick ahead_of_clock).
Proof.
  apply (clock_set_back_keeps_cache
           sample_regex (calm_env displays_built_in 200) sample_config
           ahead_of_clock true eq_refl).
  - vm_compute. discriminate.
  - vm_compute. reflexivity.
Defined.

(** The display query times out on the first call. *)
Lemma failed_detection_is_cached_witness :
  fst (has_external_monitor sample_regex (failing_env TimeoutExpired) sample_config
                            fresh_machine) = Return false /\
  _system_info (self (snd (has_external_monitor sample_regex (failing_env TimeoutExpired)
                                                sample_config fresh_machine)))
    = mkSystemInfo (Some false) 1000%Q.
Proof.
  destruct (failed_detection_is_cached
              sample_regex (failing_env TimeoutExpired) sample_config
              fresh_machine TimeoutExpired (or_introl eq_refl) eq_refl eq_refl)
    as (m1 & Hcall & Hcache & _).
  rewrite Hcall. split; [reflexivity | exact Hcache].
Defined.

(** [ifconfig] cannot be started. *)
Lemma probe_exception_aborts_iteration_witness :
  run_body sample_regex (failing_env FileNotFoundError) sample_config
           camera_on_line fresh_machine
  = (Raise FileNotFoundError, on_world ran_ifconfig (on_world tick fresh_machine)).
Proof.
  exact (probe_exception_aborts_iteration
           sample_regex (failing_env FileNotFoundError) sample_config
           camera_on_line "on" fresh_machine FileNotFoundError
           eq_refl eq_refl eq_refl eq_refl eq_refl).
Defined.

(** The empty prefix on the sample output of [ifconfig]. *)
Lemma home_network_edge_cases_witness :
  exists (is_home : bool) (ips : list string) (m' : Machine),
    is_on_home_network sample_regex (calm_env displays_built_in 200) permissive_config
                       fresh_machine = (Return (is_home, ips), m') /\
    (ips = [] -> is_home = false) /\
    ("" = "" -> ips <> [] -> is_home = true).
Proof.
  apply (home_network_edge_cases
           sample_regex (calm_env displays_built_in 200) permissive_config fresh_machine).
  intros e H. discriminate H.
Defined.

(** The sample output of [ifconfig] has four lines and one address that is
    not a loopback address. *)
Lemma active_addresses_in_line_order_witness :
  get_active_ipv4_addresses sample_regex (calm_env displays_built_in 200) fresh_machine
  = (Return ["192.168.137.5"], on_world ran_ifconfig fresh_machine).
Proof.
  exact (proj1 (active_addresses_in_line_order
                  sample_regex (calm_env displays_built_in 200) fresh_machine
                  ifconfig_output eq_refl)).
Defined.

(** Without requirements an event is notified although there is no
    external monitor. *)
Lemma no_requirements_always_notify_witness :
  length
    (webhook_posts
       (world (snd (run_body sample_regex (calm_env displays_built_in 200)
                             permissive_config camera_on_line fresh_machine)))) = 1.
Proof.
  pose proof (no_requirements_always_notify
                sample_regex (calm_env displays_built_in 200) permissive_config
                camera_on_line "on" fresh_machine
                (snd (_conditions_met sample_regex (calm_env displays_built_in 200)
                                      permissive_config (on_world tick fresh_machine)))
                true
                (<[ "external_monitor" := VBool false ]>
                   (<[ "ip_addresses" := VList ["192.168.137.5"] ]>
                      (<[ "home_network" := VBool true ]> ∅)))
                eq_refl eq_refl eq_refl eq_refl eq_refl eq_refl) as [_ H].
  rewrite H. reflexivity.
Defined.

(** [--no-require-home-network] against REQUIRE_HOME_NETWORK=True, and
    REQUIRE_EXTERNAL_MONITOR=yes without a flag: neither is required. *)
Lemma parse_arguments_gates_witness :
  exists config,
    parse_arguments sample_conversions sample_environ sample_command_line
      = Return config /\
    require_home_network config = false /\
    require_external_monitor config = false.
Proof.
  eexists. split; [reflexivity|].
  exact (parse_arguments_gates sample_conversions sample_environ sample_command_line
                               _ eq_refl).
Defined.

(** The webhook URL is refused with [ValueError]: the first event at home
    with an external monitor ends without an update of the runtime state. *)
Lemma notifier_exception_skips_update_witness :
  fst (run_body sample_regex (unreachable_webhook_env displays_with_external ValueError)
                sample_config camera_on_line fresh_machine) = Raise ValueError /\
  _last_state
    (self (snd (run_body sample_regex
                         (unreachable_webhook_env displays_with_external ValueError)
                         sample_config camera_on_line fresh_machine))) = None.
Proof.
  pose proof (notifier_exception_skips_update
                sample_regex (unreachable_webhook_env displays_with_external ValueError)
                sample_config camera_on_line "on" fresh_machine
                (snd (_conditions_met sample_regex
                        (unreachable_webhook_env displays_with_external ValueError)
                        sample_config (on_world tick fresh_machine)))
                (<[ "external_monitor" := VBool true ]>
                   (<[ "ip_addresses" := VList ["192.168.137.5"] ]>
                      (<[ "home_network" := VBool true ]> ∅)))
                ValueError eq_refl eq_refl eq_refl eq_refl eq_refl)
    as (Hraise & Hstate & _).
  split; [exact Hraise | exact Hstate].
Defined.

(** The prefix "192.168.1" of the configured "192.168.137.". *)
Lemma shorter_prefix_matches_more_witness :
  fst (is_on_home_network sample_regex (calm_env displays_built_in 200)
         (mkConfig "" "192.168.1" true true 5%Q 15%Z) fresh_machine)
  = Return (true, ["192.168.137.5"]).
Proof.
  pose proof (shorter_prefix_matches_more
                sample_regex (calm_env displays_built_in 200)
                (mkConfig "" "192.168.1" true true 5%Q 15%Z) sample_config
                fresh_machine eq_refl) as H.
  destruct (is_on_home_network sample_regex (calm_env displays_built_in 200)
              sample_config fresh_machine) as [[[home_long ips_long]|e_long] m_long] eqn:Hl.
  - destruct (is_on_home_network sample_regex (calm_env displays_built_in 200)
                (mkConfig "" "192.168.1" true true 5%Q 15%Z) fresh_machine)
      as [[[home_short ips_short]|e_short] m_short] eqn:Hs; [|destruct H].
    destruct H as [Hips Hhome]. vm_compute in Hl. injection Hl as <- <- _.
    cbn [fst]. by rewrite Hips, (Hhome eq_refl).
  - vm_compute in Hl. discriminate Hl.
Defined.

(** DEBOUNCE_SECONDS=fast in the environment, [--debounce-seconds 2.5] on
    the command line. *)
Lemma parse_arguments_converts_environment_first_witness :
  parse_arguments sample_conversions {[ "DEBOUNCE_SECONDS" := "fast" ]}
                  sample_command_line = Raise ValueError /\
  main sample_regex (calm_env displays_built_in 200) sample_conversions
       {[ "DEBOUNCE_SECONDS" := "fast" ]} sample_command_line [camera_on_line]
       World_init = (Raise ValueError, World_init).
Proof.
  assert (Hbad :
    py_float sample_conversions
      (getenv {[ "DEBOUNCE_SECONDS" := "fast" ]} "DEBOUNCE_SECONDS" "5.0") = None \/
    py_int sample_conversions
      (getenv {[ "DEBOUNCE_SECONDS" := "fast" ]} "DISPLAYS_CACHE_TTL_SECONDS" "15")
      = None)
    by (left; reflexivity).
  destruct (parse_arguments_converts_environment_first
              sample_conversions {[ "DEBOUNCE_SECONDS" := "fast" ]} sample_command_line
              Hbad) as [Hparse Hmain].
  split; [exact Hparse | apply Hmain].
Defined.
